(** * Parakeet transcription server: model of [parakeet-server/server.py]

    The development embeds the request handlers of the FastAPI service
    ([get_model], [health], [transcribe], [startup]) as functions over an
    explicit world (module globals, filesystem, standard output), with Python
    exceptions as an error result, and proves the properties of the
    specification about them.

    Library behaviour the handlers rely on is modelled from its documented
    semantics: [pathlib.PurePosixPath.suffix], [tempfile.NamedTemporaryFile]
    with [delete=False], [os.unlink], and the [try]/[except]/[finally]
    statement. *)

From Stdlib Require Import String Ascii ZArith QArith List.
From Stdlib.Strings Require Import Byte.
From Stdlib Require Import DecimalString.
From stdpp Require Import base gmap strings list.

Set Warnings "-register-all".

Local Open Scope string_scope.
Local Open Scope Z_scope.

(** ** Python strings *)

Module Py.

(** [len(s)] *)
Definition len (s : string) : Z := Z.of_nat (String.length s).

(** [s.split(sep)] for a one-character separator: never the empty list. *)
Fixpoint split (sep : ascii) (s : string) : list string :=
  match s with
  | EmptyString => [EmptyString]
  | String a s' =>
      if Ascii.eqb a sep then EmptyString :: split sep s'
      else match split sep s' with
           | [] => [String a EmptyString]
           | p :: ps => String a p :: ps
           end
  end.

(** [s.rfind(c)]: the highest index of [c] in [s], [-1] when there is none. *)
Fixpoint rfind (c : ascii) (s : string) : Z :=
  match s with
  | EmptyString => -1
  | String a s' =>
      let i := rfind c s' in
      if 0 <=? i then i + 1
      else if Ascii.eqb a c then 0 else -1
  end.

(** [s[i:]] for [0 <= i]. *)
Fixpoint drop (n : nat) (s : string) : string :=
  match n, s with
  | O, _ => s
  | S n', String _ s' => drop n' s'
  | S _, EmptyString => EmptyString
  end.

Definition slice_from (i : Z) (s : string) : string := drop (Z.to_nat i) s.

(** [c in s] for a character [c]. *)
Fixpoint contains (c : ascii) (s : string) : bool :=
  match s with
  | EmptyString => false
  | String a s' => Ascii.eqb a c || contains c s'
  end.

(** Truth value of an optional string: [None] and the empty string are falsy. *)
Definition truthy_str (o : option string) : bool :=
  match o with
  | None => false
  | Some s => negb (String.eqb s EmptyString)
  end.

End Py.

(** ** [pathlib.PurePosixPath]: [name] and [suffix] *)

Module PurePath.

(** The components kept by the POSIX flavour's parser: the path is split at
    ["/"], and empty components and ["."] are dropped. *)
Definition parts (p : string) : list string :=
  List.filter (fun x => negb (String.eqb x EmptyString) && negb (String.eqb x "."))
              (Py.split "/"%char p).

(** [Path(p).name]: the final component, the empty string when there is none. *)
Definition name (p : string) : string := List.last (parts p) EmptyString.

(** [suffix] as a function of the name:
<<
    i = name.rfind('.')
    if 0 < i < len(name) - 1: return name[i:]
    else: return ''
>> *)
Definition suffix_of_name (nm : string) : string :=
  let i := Py.rfind "."%char nm in
  if (0 <? i) && (i <? Py.len nm - 1) then Py.slice_from i nm else EmptyString.

(** [Path(p).suffix] *)
Definition suffix (p : string) : string := suffix_of_name (name p).

End PurePath.

(** A non-empty suffix as [pathlib] produces it: a dot followed by at
    least one character, none of them a dot or a separator. *)
Definition is_extension (s : string) : Prop :=
  exists rest, s = String "."%char rest /\ rest <> EmptyString /\
    Py.contains "."%char rest = false /\ Py.contains "/"%char rest = false.

(** ** Values exchanged with the collaborators *)

(** A Python exception raised by a collaborator (the inference library, the
    upload stream, the operating system). [exc_is_Exception] is
    [isinstance(e, Exception)]: it is [false] for [KeyboardInterrupt],
    [SystemExit], [GeneratorExit] and [asyncio.CancelledError], which derive
    from [BaseException] only. [exc_str] is [str(e)]. *)
Record PyExc := mkExc {
  exc_class : string;
  exc_is_Exception : bool;
  exc_str : string
}.

(** What leaves the [transcribe] handler as an exception: the
    [HTTPException] it raises itself, or a collaborator's exception that
    travels on to the framework. *)
Inductive HandlerExc :=
| HTTPException (status_code : Z) (detail : string)
| Propagated (e : PyExc).

(** Outcome of a call: a value, or a raised exception of type [E]. *)
Inductive res (E A : Type) :=
| Return (a : A)
| Raise (e : E).
Arguments Return {E A} a.
Arguments Raise {E A} e.

(** A Python [float]: a finite number, or one of the three values that JSON
    has no notation for. *)
Inductive pyfloat :=
| Finite (x : Q)
| NaN
| PosInf
| NegInf.

(** [math.isfinite(x)] *)
Definition is_finite (x : pyfloat) : bool :=
  match x with Finite _ => true | _ => false end.

(** The content passed to [JSONResponse]: Python values of the kinds the
    handler builds. A [dict] keeps its keys in insertion order. *)
Inductive json :=
| JNull
| JString (s : string)
| JNumber (x : pyfloat)
| JArray (items : list json)
| JObject (fields : list (string * json)).

(** [d.get(k)] on the fields of a JSON object. *)
(** Whether [json.dumps(content, allow_nan=False)] accepts the content: every
    number in it is finite. *)
Fixpoint json_compliant (content : json) : bool :=
  match content with
  | JNull => true
  | JString _ => true
  | JNumber x => is_finite x
  | JArray items => List.forallb json_compliant items
  | JObject fields =>
      List.forallb (fun kv => match kv with (_, v) => json_compliant v end) fields
  end.


Record JSONResponse := mkJSONResponse {
  status_code : Z;
  content : json
}.

(** A segment reported by the model: the handler reads [start], [end] and
    [text]; whatever else the object carries is in [seg_other]. *)
Record Segment := mkSegment {
  seg_start : pyfloat;
  seg_end : pyfloat;
  seg_text : string;
  seg_other : list (string * json)
}.


(** The [segments] attribute of a result object: the attribute may be
    missing ([hasattr] is false), hold [None], or hold a list. *)
Inductive SegmentsAttr :=
| NoAttr
| AttrNone
| AttrList (segs : list Segment).

Record TranscriptionResult := mkResult {
  result_text : string;
  result_segments : SegmentsAttr
}.

(** The loaded model is an opaque object; the number is its identity. *)
Definition Model := nat.

(** The upload handed to the handler. [upload_read] is what
    [await audio.read()] yields. *)
Record UploadFile := mkUpload {
  filename : option string;
  content_type : option string;
  upload_read : res PyExc (list byte)
}.

(** ** The world *)

Abbreviation Files := (gmap string (list byte)).

(** Module global [_model], the filesystem, the process environment and
    standard output. [loads] is a ghost counter of the calls made to
    [from_pretrained]. *)
Record World := mkWorld {
  fs : Files;
  environ : gmap string string;
  _model : option Model;
  loads : nat;
  stdout : list string
}.

Definition set_fs (f : Files) (w : World) : World :=
  mkWorld f (environ w) (_model w) (loads w) (stdout w).

Definition set_model (m : option Model) (w : World) : World :=
  mkWorld (fs w) (environ w) m (loads w) (stdout w).

Definition count_load (w : World) : World :=
  mkWorld (fs w) (environ w) (_model w) (S (loads w)) (stdout w).

Definition write_stdout (line : string) (w : World) : World :=
  mkWorld (fs w) (environ w) (_model w) (loads w) (stdout w ++ [line]).

(** The collaborators, which are outside the service:
    - [from_pretrained id k files]: the [k]-th construction of the model
      named [id] (import of [parakeet_mlx] included); it returns a model or
      raises, and may touch the filesystem (it downloads and caches assets);
    - [model_transcribe m path files]: [m.transcribe(path)];
    - [gettempdir] and [tmp_names]: the temporary directory and the stream
      of random name candidates of [tempfile];
    - [TMP_MAX]: [tempfile.TMP_MAX], the platform's [os.TMP_MAX] where it
      is defined and [10000] otherwise;
    - [open_fault path]: [Some e] when [os.open] refuses the path itself and
      raises [e], whether or not such a file exists (a name that is too
      long, an embedded null byte, a directory that cannot be written);
    - [write_fault path data]: [None] when [tmp.write(data)] succeeds,
      [Some (k, e)] when it raises [e] after [k] bytes reached the file. *)
Record Env := mkEnv {
  from_pretrained : string -> nat -> Files -> res PyExc Model * Files;
  model_transcribe : Model -> string -> Files -> res PyExc TranscriptionResult * Files;
  gettempdir : string;
  tmp_names : nat -> string;
  TMP_MAX : nat;
  open_fault : string -> option PyExc;
  write_fault : string -> list byte -> option (nat * PyExc)
}.

(** Names drawn from the alphabet of [tempfile] hold no dot and no
    separator. *)
Definition plain_names (E : Env) : Prop :=
  forall k, Py.contains "."%char (tmp_names E k) = false /\
            Py.contains "/"%char (tmp_names E k) = false.

(** ** Computations over the world that may raise *)

Definition M (E A : Type) : Type := World -> res E A * World.

Definition ret {E A} (a : A) : M E A := fun w => (Return a, w).

Definition raise {E A} (e : E) : M E A := fun w => (Raise e, w).

Definition bind {E A B} (c : M E A) (k : A -> M E B) : M E B :=
  fun w =>
    match c w with
    | (Return a, w') => k a w'
    | (Raise e, w') => (Raise e, w')
    end.

Notation "x <- c ;; k" := (bind c (fun x => k))
  (at level 100, c at next level, right associativity).
Notation "c ;;; k" := (bind c (fun _ => k))
  (at level 100, right associativity).

(** An exception of a collaborator that nothing catches on the way out. *)
Definition propagate {A} (c : M PyExc A) : M HandlerExc A :=
  fun w =>
    match c w with
    | (Return a, w') => (Return a, w')
    | (Raise e, w') => (Raise (Propagated e), w')
    end.

(** [try: body / except Exception as e: handler e]: only instances of
    [Exception] are caught. *)
Definition try_except_Exception {A} (body : M PyExc A)
    (handler : PyExc -> M HandlerExc A) : M HandlerExc A :=
  fun w =>
    match body w with
    | (Return a, w') => (Return a, w')
    | (Raise e, w') =>
        if exc_is_Exception e then handler e w'
        else (Raise (Propagated e), w')
    end.

(** [try: body / finally: cleanup]: [cleanup] runs on every exit of [body];
    when it raises, its exception replaces the outcome of [body]. *)
Definition try_finally {A} (body : M HandlerExc A)
    (cleanup : M PyExc unit) : M HandlerExc A :=
  fun w =>
    let '(r, w1) := body w in
    match cleanup w1 with
    | (Return _, w2) => (r, w2)
    | (Raise e, w2) => (Raise (Propagated e), w2)
    end.

Definition print {E} (line : string) : M E unit :=
  fun w => (Return tt, write_stdout line w).

(** ** Operating system and [tempfile] *)

Definition FileNotFoundError (path : string) : PyExc :=
  mkExc "FileNotFoundError" true
        ("[Errno 2] No such file or directory: '" ++ path ++ "'").

Definition FileExistsError_no_name : PyExc :=
  mkExc "FileExistsError" true
        "[Errno 17] No usable temporary file name found".

(** [os.unlink(path)]: removes the name, raises when there is no such file. *)
Definition os_unlink (path : string) : M PyExc unit :=
  fun w =>
    match fs w !! path with
    | Some _ => (Return tt, set_fs (delete path (fs w)) w)
    | None => (Raise (FileNotFoundError path), w)
    end.

(** [tempfile._mkstemp_inner]: at most [TMP_MAX] candidates are tried.
    [os.open] with [O_CREAT | O_EXCL] creates the file empty under the
    candidate name; a [FileExistsError] moves on to the next candidate, any
    other exception of [os.open] leaves the function. *)
Fixpoint mkstemp_inner (E : Env) (suf : string) (files : Files)
    (seq attempts : nat) : res PyExc string * Files :=
  match attempts with
  | O => (Raise FileExistsError_no_name, files)
  | S attempts' =>
      let file := gettempdir E ++ "/" ++ "tmp" ++ tmp_names E seq ++ suf in
      match open_fault E file with
      | Some e => (Raise e, files)
      | None =>
          match files !! file with
          | Some _ => mkstemp_inner E suf files (S seq) attempts'
          | None => (Return file, <[file := []]> files)
          end
      end
  end.

(** [tempfile.NamedTemporaryFile(delete=False, suffix=suffix)]; the value is
    the file's [name]. *)
Definition NamedTemporaryFile (E : Env) (suffix : string) : M PyExc string :=
  fun w =>
    let '(r, files) := mkstemp_inner E suffix (fs w) 0 (TMP_MAX E) in
    (r, set_fs files w).

(** [tmp.write(content)] *)
Definition tmp_write (E : Env) (path : string) (data : list byte) : M PyExc unit :=
  fun w =>
    match write_fault E path data with
    | None => (Return tt, set_fs (<[path := data]> (fs w)) w)
    | Some (k, e) => (Raise e, set_fs (<[path := List.firstn k data]> (fs w)) w)
    end.

(** [await audio.read()] *)
Definition audio_read (audio : UploadFile) : M PyExc (list byte) :=
  fun w => (upload_read audio, w).

(** ** The service *)

Section Service.

Context (E : Env).

Definition MODEL_ID : string := "mlx-community/parakeet-tdt-0.6b-v3".

(** The call [from_pretrained("mlx-community/parakeet-tdt-0.6b-v3")]. *)
Definition call_from_pretrained : M PyExc Model :=
  fun w =>
    let '(r, files) := from_pretrained E MODEL_ID (loads w) (fs w) in
    (r, count_load (set_fs files w)).

(** The two progress lines printed around the construction. *)
Definition LOADING : string := "🦜 Loading Parakeet model (first time only)...".
Definition LOADED : string := "✅ Model loaded!".

Definition read_model : M PyExc (option Model) :=
  fun w => (Return (_model w), w).

Definition store_model (m : Model) : M PyExc unit :=
  fun w => (Return tt, set_model (Some m) w).

(** [get_model], lines 27-34:
<<
    global _model
    if _model is None:
        print("... Loading Parakeet model (first time only)...")
        from parakeet_mlx import from_pretrained
        _model = from_pretrained("mlx-community/parakeet-tdt-0.6b-v3")
        print("... Model loaded!")
    return _model
>> *)
Definition get_model : M PyExc (option Model) :=
  cur <- read_model ;;
  match cur with
  | None =>
      print LOADING ;;;
      m <- call_from_pretrained ;;
      store_model m ;;;
      print LOADED
  | Some _ => ret tt
  end ;;;
  read_model.

(** [health], lines 51-54. *)
Definition health : M HandlerExc json :=
  ret (JObject [("status", JString "ok");
                ("model", JString "parakeet-tdt-0.6b-v3")]).

(** The media types listed at lines 65-71; the handler builds the set and
    never consults it. *)
Definition allowed_types : list string :=
  ["audio/wav"; "audio/x-wav"; "audio/wave";
   "audio/mpeg"; "audio/mp3";
   "audio/webm"; "audio/ogg"; "audio/flac";
   "audio/m4a"; "audio/mp4"; "audio/x-m4a";
   "application/octet-stream"].

(** Line 73: [audio.content_type or "application/octet-stream"]; the value
    is not used afterwards. *)
Definition content_type_or_default (audio : UploadFile) : string :=
  if Py.truthy_str (content_type audio)
  then default EmptyString (content_type audio)
  else "application/octet-stream".

(** Line 76:
    [suffix = Path(audio.filename).suffix if audio.filename else ".webm"] *)
Definition upload_suffix (audio : UploadFile) : string :=
  if Py.truthy_str (filename audio)
  then PurePath.suffix (default EmptyString (filename audio))
  else ".webm".

(** Lines 77-80: the [with] block. The file exists from the moment
    [NamedTemporaryFile] returns; leaving the block closes it and, with
    [delete=False], keeps it on disk. The value is [tmp_path]. *)
Definition save_upload (audio : UploadFile) : M PyExc string :=
  tmp <- NamedTemporaryFile E (upload_suffix audio) ;;
  data <- audio_read audio ;;
  tmp_write E tmp data ;;;
  ret tmp.

(** [model.transcribe(tmp_path)]; on [None] the attribute lookup raises. *)
Definition call_transcribe (model : option Model) (path : string)
    : M PyExc TranscriptionResult :=
  match model with
  | Some m =>
      fun w =>
        let '(r, files) := model_transcribe E m path (fs w) in
        (r, set_fs files w)
  | None =>
      raise (mkExc "AttributeError" true
                   "'NoneType' object has no attribute 'transcribe'")
  end.

(** [{"start": seg.start, "end": seg.end, "text": seg.text}] *)
Definition segment_json (seg : Segment) : json :=
  JObject [("start", JNumber (seg_start seg));
           ("end", JNumber (seg_end seg));
           ("text", JString (seg_text seg))].

(** [hasattr(result, 'segments') and result.segments], as a truth value. *)
Definition has_segments (result : TranscriptionResult) : bool :=
  match result_segments result with
  | NoAttr => false
  | AttrNone => false
  | AttrList [] => false
  | AttrList (_ :: _) => true
  end.

(** [result.segments or []], evaluated when the attribute exists. *)
Definition segments_or_empty (result : TranscriptionResult) : list Segment :=
  match result_segments result with
  | AttrList (s :: l) => s :: l
  | _ => []
  end.

(** Lines 87-93: the content of the response. *)
Definition response_content (result : TranscriptionResult) : json :=
  JObject [("text", JString (result_text result));
           ("segments",
            JArray (if has_segments result
                    then List.map segment_json (segments_or_empty result)
                    else []))].

(** The [ValueError] of [json.dumps] on a number that is not finite (the
    text is that of CPython 3.11). *)
Definition OutOfRangeFloat : PyExc :=
  mkExc "ValueError" true "Out of range float values are not JSON compliant".

(** [JSONResponse(content)]: the constructor renders the body at once, with
    [allow_nan=False], and so raises on content that is not compliant; the
    status is the default, 200. *)
Definition new_JSONResponse (content : json) : M PyExc JSONResponse :=
  if json_compliant content
  then ret (mkJSONResponse 200 content)
  else raise OutOfRangeFloat.

(** Lines 84-93: the body of the [try]. *)
Definition try_body (tmp_path : string) : M PyExc JSONResponse :=
  model <- get_model ;;
  result <- call_transcribe model tmp_path ;;
  new_JSONResponse (response_content result).

(** Lines 82-96: the [try] with its [except Exception] clause. *)
Definition try_except (tmp_path : string) : M HandlerExc JSONResponse :=
  try_except_Exception (try_body tmp_path)
    (fun e => raise (HTTPException 500 (exc_str e))).

(** Lines 82-100: [try] / [except] / [finally: os.unlink(tmp_path)]. *)
Definition transcribe_saved (tmp_path : string) : M HandlerExc JSONResponse :=
  try_finally (try_except tmp_path) (os_unlink tmp_path).

(** [transcribe], lines 57-100. *)
Definition transcribe (audio : UploadFile) : M HandlerExc JSONResponse :=
  tmp_path <- propagate (save_upload audio) ;;
  transcribe_saved tmp_path.

(** [startup], lines 103-108. *)
Definition startup : M PyExc unit :=
  print "🚀 Starting Parakeet server..." ;;;
  print "   Model will load on first request (or set PRELOAD=1 to load now)" ;;;
  fun w =>
    if bool_decide (environ w !! "PRELOAD" = Some "1")
    then (get_model ;;; ret tt) w
    else (Return tt, w).

End Service.

(** ** Calls to [get_model] that interleave

    [get_model] statement by statement, for callers that share the module
    global. A caller is at one of the program points below; a schedule names
    the caller that executes its next statement. *)

Module Threads.

Inductive pc :=
| L29                      (* if _model is None: *)
| L30                      (* print(... Loading ...) *)
| L32_call                 (* from_pretrained(...), value not yet stored *)
| L32_store (m : Model)    (* _model = <the value> *)
| L33                      (* print(... Model loaded!) *)
| L34                      (* return _model *)
| Finished (r : res PyExc (option Model)).

Definition step_thread (E : Env) (p : pc) (w : World) : pc * World :=
  match p with
  | L29 => (match _model w with None => L30 | Some _ => L34 end, w)
  | L30 => (L32_call, write_stdout LOADING w)
  | L32_call =>
      match call_from_pretrained E w with
      | (Return m, w') => (L32_store m, w')
      | (Raise e, w') => (Finished (Raise e), w')
      end
  | L32_store m => (L33, set_model (Some m) w)
  | L33 => (L34, write_stdout LOADED w)
  | L34 => (Finished (Return (_model w)), w)
  | Finished r => (Finished r, w)
  end.

(** The shared world and the program point of every caller. *)
Definition Config : Type := World * list pc.

(** Caller [i] executes one statement. *)
Definition step (E : Env) (c : Config) (i : nat) : Config :=
  match snd c !! i with
  | Some p =>
      let '(p', w') := step_thread E p (fst c) in
      (w', <[i := p']> (snd c))
  | None => c
  end.

Definition run (E : Env) (sched : list nat) (c : Config) : Config :=
  List.fold_left (step E) sched c.

(** [k] statements of one caller, nobody else running in between. *)
Fixpoint steps_thread (E : Env) (k : nat) (p : pc) (w : World) : pc * World :=
  match k with
  | O => (p, w)
  | S k' =>
      let '(p', w') := step_thread E p w in
      steps_thread E k' p' w'
  end.

(** [n] callers at the entry of [get_model]. *)
Definition start (w : World) (n : nat) : Config := (w, replicate n L29).

Definition finished (p : pc) : bool :=
  match p with Finished _ => true | _ => false end.

Definition all_finished (c : Config) : bool := forallb finished (snd c).

(** The longest path through [get_model] has six statements. *)
Definition STEPS : nat := 6.

(** The schedule of a run-to-completion scheduler: caller [0] runs
    [get_model] to its end, then caller [1], and so on. The handlers are
    coroutines on one event loop and [get_model] contains no [await], so this
    is how the event loop runs [n] requests that reach [get_model]. *)
Definition serial (n : nat) : list nat :=
  List.concat (List.map (fun i => replicate STEPS i) (seq 0 n)).

(** What the program point of a caller says about the world: past the
    assignment the global holds a model, and a returned value is one. *)
Definition pc_ok (w : World) (p : pc) : Prop :=
  match p with
  | L33 | L34 => is_Some (_model w)
  | Finished (Return r) => is_Some r /\ is_Some (_model w)
  | _ => True
  end.

(** [1] for a caller that may still call [from_pretrained]. *)
Definition pending (p : pc) : nat :=
  match p with
  | L29 | L30 | L32_call => 1
  | _ => 0
  end.

(** Constructions made so far plus those that may still come. *)
Definition potential (c : Config) : nat :=
  (loads (fst c) + list_sum (List.map pending (snd c)))%nat.

End Threads.

(** ** Sequences of handler invocations *)

Inductive event :=
| EvStartup
| EvHealth
| EvTranscribe (audio : UploadFile)
| EvGetModel.

Definition handle (E : Env) (ev : event) (w : World) : World :=
  match ev with
  | EvStartup => snd (startup E w)
  | EvHealth => snd (health w)
  | EvTranscribe audio => snd (transcribe E audio w)
  | EvGetModel => snd (get_model E w)
  end.

Definition handle_all (E : Env) (evs : list event) (w : World) : World :=
  List.fold_left (fun w ev => handle E ev w) evs w.

(** What later calls see of the handle: the global and the number of
    constructions made so far. *)
Definition same_handle (w w' : World) : Prop :=
  _model w' = _model w /\ loads w' = loads w.

(** ** The entry point *)

Definition set_environ (env : gmap string string) (w : World) : World :=
  mkWorld (fs w) env (_model w) (loads w) (stdout w).

(** The namespace returned by [parser.parse_args()], lines 112-116. *)
Record Args := mkArgs {
  host : string;
  port : Z;
  preload : bool
}.

(** The defaults declared at lines 113-115. *)
Definition default_args : Args := mkArgs "0.0.0.0" 8765 false.

(** [str(n)] for an [int]. *)
Definition str_int (n : Z) : string := NilZero.string_of_int (Z.to_int n).

(** Lines 118-122 of the script, up to the call of [uvicorn.run]; the value
    is the address handed to it. *)
Definition main (args : Args) : M PyExc (string * Z) :=
  (fun w =>
     if preload args
     then (Return tt, set_environ (<["PRELOAD" := "1"]> (environ w)) w)
     else (Return tt, w)) ;;;
  print ("🦜 Parakeet server starting on http://" ++ host args ++ ":"
           ++ str_int (port args)) ;;;
  ret (host args, port args).

(** ** Vocabulary of the statements *)

(** The same upload announced with another media type. *)
Definition with_content_type (ct : option string) (audio : UploadFile) : UploadFile :=
  mkUpload (filename audio) ct (upload_read audio).

(** Collaborators that leave the filesystem as they find it. *)
Definition leaves_files_alone (E : Env) : Prop :=
  (forall id k files, snd (from_pretrained E id k files) = files) /\
  (forall m path files, snd (model_transcribe E m path files) = files).

(** Two worlds that differ in their files at most. *)
Definition files_only (w w' : World) : Prop :=
  environ w' = environ w /\ _model w' = _model w /\
  loads w' = loads w /\ stdout w' = stdout w.

(** How often a line was printed. *)
Definition count_line (line : string) (out : list string) : nat :=
  length (List.filter (String.eqb line) out).

(** Every construction was announced, and the completion line was printed
    once if a model is loaded and not at all otherwise. *)
Definition announced (w : World) : Prop :=
  count_line LOADING (stdout w) = loads w /\
  count_line LOADED (stdout w) =
    match _model w with Some _ => 1%nat | None => 0%nat end.

(** The world when the process starts: nothing loaded, nothing printed. *)
Definition boot (files : Files) (env : gmap string string) : World :=
  mkWorld files env None 0 [].

(** ** Concrete collaborators used in the examples *)

Module Fixtures.

Definition w0 : World := mkWorld ∅ ∅ None 0 [].

Definition hello : TranscriptionResult :=
  mkResult "hello world"
           (AttrList [mkSegment (Finite 0) (Finite (3 # 2)) "hello"
                                [("confidence", JNumber (Finite (9 # 10)))];
                      mkSegment (Finite (3 # 2)) (Finite 2) "world" []]).

Fixpoint name_of (k : nat) : string :=
  match k with
  | O => "k3x9_qa1"
  | S k' => String "z"%char (name_of k')
  end.

(** Every construction succeeds and yields a new object; transcription
    succeeds; writes succeed. *)
Definition quiet : Env :=
  mkEnv (fun _ k files => (Return k, files))
        (fun _ _ files => (Return hello, files))
        "/tmp" name_of (100 * 100)%nat (fun _ => None) (fun _ _ => None).

Definition KeyboardInterrupt : PyExc := mkExc "KeyboardInterrupt" false EmptyString.

(** The construction is interrupted. *)
Definition interrupted : Env :=
  mkEnv (fun _ _ files => (Raise KeyboardInterrupt, files))
        (model_transcribe quiet) "/tmp" name_of (100 * 100)%nat (fun _ => None) (fun _ _ => None).

Definition ConnectionError : PyExc :=
  mkExc "ConnectionError" true "model assets unreachable".

(** The construction fails every time. *)
Definition offline : Env :=
  mkEnv (fun _ _ files => (Raise ConnectionError, files))
        (model_transcribe quiet) "/tmp" name_of (100 * 100)%nat (fun _ => None) (fun _ _ => None).

(** The first construction fails, later ones succeed. *)
Definition flaky : Env :=
  mkEnv (fun _ k files =>
           (match k with O => Raise ConnectionError | S _ => Return k end, files))
        (model_transcribe quiet) "/tmp" name_of (100 * 100)%nat (fun _ => None) (fun _ _ => None).

(** The transcription consumes its input file and succeeds. *)
Definition consuming : Env :=
  mkEnv (from_pretrained quiet)
        (fun _ path files => (Return hello, delete path files))
        "/tmp" name_of (100 * 100)%nat (fun _ => None) (fun _ _ => None).

Definition DecodeError : PyExc := mkExc "RuntimeError" true "could not decode audio".

(** The transcription removes its input file and then fails. *)
Definition consuming_failing : Env :=
  mkEnv (from_pretrained quiet)
        (fun _ path files => (Raise DecodeError, delete path files))
        "/tmp" name_of (100 * 100)%nat (fun _ => None) (fun _ _ => None).

Definition DiskFull : PyExc :=
  mkExc "OSError" true "[Errno 28] No space left on device".

(** The disk fills up after two bytes of the upload. *)
Definition full_disk : Env :=
  mkEnv (from_pretrained quiet) (model_transcribe quiet)
        "/tmp" name_of (100 * 100)%nat (fun _ => None)
        (fun _ _ => Some (2%nat, DiskFull)).



Definition NameTooLong : PyExc :=
  mkExc "OSError" true "[Errno 36] File name too long".

(** [os.open] refuses every path. *)
Definition long_names : Env :=
  mkEnv (from_pretrained quiet) (model_transcribe quiet)
        "/tmp" name_of (100 * 100)%nat (fun _ => Some NameTooLong)
        (fun _ _ => None).

(** Two callers of [get_model] that take turns, statement by statement. *)
Definition alternating : list nat :=
  [0; 1; 0; 1; 0; 1; 0; 1; 0; 1; 0; 1]%nat.

Definition clip : UploadFile :=
  mkUpload (Some "clip.flac") (Some "audio/flac") (Return [x52; x49; x46; x46]).

Definition blob : UploadFile :=
  mkUpload None None (Return [x1a; x45; xdf; xa3]).

Definition ClientDisconnect : PyExc := mkExc "ClientDisconnect" true EmptyString.

(** An upload whose body cannot be read. *)
Definition truncated : UploadFile :=
  mkUpload (Some "clip.flac") (Some "audio/flac") (Raise ClientDisconnect).

(** A world with one file that belongs to somebody else. *)
Definition w_notes : World :=
  mkWorld {["/tmp/notes.txt" := [x68; x69]]} ∅ None 0 [].

(** An upload whose filename points outside the temporary directory. *)
Definition traversal : UploadFile :=
  mkUpload (Some "../../etc/cron.d/job.sh") None (Return []).

(** Process environments with [PRELOAD] set. *)
Definition w_preload : World := mkWorld ∅ {["PRELOAD" := "1"]} None 0 [].

Definition w_preload_true : World := mkWorld ∅ {["PRELOAD" := "true"]} None 0 [].

Definition w_preload_off : World := mkWorld ∅ {["PRELOAD" := "0"]} None 0 [].

End Fixtures.


(** * Properties *)

(** ** Strings and paths *)

Lemma rfind_absent c s : Py.contains c s = false -> Py.rfind c s = -1.
Proof.
  induction s as [|a s IH]; simpl; [reflexivity|].
  intros H. apply orb_false_iff in H as [Ha Hs].
  rewrite (IH Hs), Ha. reflexivity.
Qed.

Lemma split_absent c sep s :
  Py.contains c s = false ->
  Forall (fun p => Py.contains c p = false) (Py.split sep s).
Proof.
  induction s as [|a s IH]; simpl; intros H.
  - repeat constructor.
  - apply orb_false_iff in H as [Ha Hs]. specialize (IH Hs).
    destruct (Ascii.eqb a sep).
    + constructor; [reflexivity | exact IH].
    + destruct (Py.split sep s) as [|p ps].
      * repeat constructor. simpl. rewrite Ha. reflexivity.
      * inversion IH; subst. constructor; [|assumption].
        simpl. rewrite Ha. assumption.
Qed.

Lemma last_Forall {A} (P : A -> Prop) (l : list A) d :
  Forall P l -> P d -> P (List.last l d).
Proof.
  induction l as [|x l IH]; simpl; intros Hl Hd; [exact Hd|].
  inversion Hl; subst. destruct l; [assumption | apply IH; assumption].
Qed.

Lemma name_absent c p :
  Py.contains c p = false -> Py.contains c (PurePath.name p) = false.
Proof.
  intros H. unfold PurePath.name, PurePath.parts.
  apply (last_Forall (fun q => Py.contains c q = false)); [|reflexivity].
  apply List.Forall_forall. intros q Hq.
  apply List.filter_In in Hq as [Hq _].
  pose proof (split_absent c "/"%char p H) as HF.
  rewrite List.Forall_forall in HF. apply HF. exact Hq.
Qed.

(** A filename without a dot has the empty suffix. *)
Lemma suffix_no_dot p : Py.contains "."%char p = false -> PurePath.suffix p = EmptyString.
Proof.
  intros H. unfold PurePath.suffix, PurePath.suffix_of_name.
  rewrite (rfind_absent _ _ (name_absent _ _ H)). reflexivity.
Qed.

Lemma append_empty_r s : s = s ++ EmptyString.
Proof.
  induction s as [|a s IH]; [reflexivity|].
  change (String a s = String a (s ++ EmptyString)). f_equal. exact IH.
Qed.

Lemma drop_is_tail n s : exists pre, s = pre ++ Py.drop n s.
Proof.
  revert s. induction n as [|n IH]; intros s.
  - exists EmptyString. reflexivity.
  - destruct s as [|a s]; simpl.
    + exists EmptyString. reflexivity.
    + destruct (IH s) as [pre Hpre]. exists (String a pre).
      change (String a s = String a (pre ++ Py.drop n s)).
      f_equal. exact Hpre.
Qed.

(** A non-empty suffix is the end of the path's name. *)
Lemma suffix_is_tail p : exists pre, PurePath.name p = pre ++ PurePath.suffix p.
Proof.
  unfold PurePath.suffix, PurePath.suffix_of_name.
  destruct (_ && _).
  - apply drop_is_tail.
  - exists (PurePath.name p). apply append_empty_r.
Qed.

Lemma len_append a b : Py.len (a ++ b) = Py.len a + Py.len b.
Proof.
  unfold Py.len. induction a as [|x a IH].
  - reflexivity.
  - change (String x a ++ b) with (String x (a ++ b)).
    cbn [String.length]. lia.
Qed.

Lemma contains_append c a b :
  Py.contains c (a ++ b) = Py.contains c a || Py.contains c b.
Proof.
  induction a as [|x a IH]; [reflexivity|].
  change (String x a ++ b) with (String x (a ++ b)). simpl.
  rewrite IH. apply orb_assoc.
Qed.

Lemma rfind_negative_absent c s : Py.rfind c s < 0 -> Py.contains c s = false.
Proof.
  induction s as [|a s IH]; simpl; [reflexivity|].
  destruct (0 <=? Py.rfind c s) eqn:Hi.
  - apply Z.leb_le in Hi. lia.
  - apply Z.leb_gt in Hi. rewrite (IH Hi).
    destruct (Ascii.eqb a c); [lia | reflexivity].
Qed.

(** The text from the last occurrence of [c] on. *)
Lemma rfind_drop c s :
  0 <= Py.rfind c s ->
  exists rest, Py.slice_from (Py.rfind c s) s = String c rest /\
    Py.contains c rest = false /\ Py.len rest = Py.len s - Py.rfind c s - 1.
Proof.
  unfold Py.slice_from, Py.len.
  induction s as [|a s IH]; simpl Py.rfind; [lia|].
  destruct (0 <=? Py.rfind c s) eqn:Hi.
  - apply Z.leb_le in Hi. intros _. destruct (IH Hi) as (rest & Hd & Hc & Hl).
    exists rest. replace (Z.to_nat (Py.rfind c s + 1))
      with (S (Z.to_nat (Py.rfind c s))) by lia.
    simpl. split; [exact Hd|]. split; [exact Hc|]. lia.
  - apply Z.leb_gt in Hi. destruct (Ascii.eqb_spec a c) as [-> | Hne]; [|lia].
    intros _. exists s. simpl. split; [reflexivity|].
    split; [apply rfind_negative_absent; exact Hi | lia].
Qed.

Lemma contains_drop c n s :
  Py.contains c s = false -> Py.contains c (Py.drop n s) = false.
Proof.
  revert s. induction n as [|n IH]; intros s H; [exact H|].
  destruct s as [|a s]; [reflexivity|]. simpl in *.
  apply orb_false_iff in H as [_ H]. apply IH, H.
Qed.

(** The suffix of a name is empty or an extension. *)
Lemma suffix_of_name_shape nm :
  Py.contains "/"%char nm = false ->
  PurePath.suffix_of_name nm = EmptyString \/
  is_extension (PurePath.suffix_of_name nm).
Proof.
  intros Hsep. unfold PurePath.suffix_of_name.
  destruct (_ && _) eqn:Hcond; [right | left; reflexivity].
  apply andb_true_iff in Hcond as [Hlo Hhi].
  apply Z.ltb_lt in Hlo, Hhi.
  destruct (rfind_drop "."%char nm) as (rest & Hd & Hc & Hl); [lia|].
  exists rest. split; [exact Hd|]. split.
  - intros ->. unfold Py.len in Hl at 1. simpl in Hl. lia.
  - split; [exact Hc|].
    pose proof (contains_drop "/"%char (Z.to_nat (Py.rfind "."%char nm)) nm Hsep)
      as Hrest.
    unfold Py.slice_from in Hd. rewrite Hd in Hrest. simpl in Hrest.
    exact Hrest.
Qed.

Lemma split_not_nil sep s : Py.split sep s <> [].
Proof.
  destruct s as [|a s]; simpl; [discriminate|].
  destruct (Ascii.eqb a sep); [discriminate|].
  destruct (Py.split sep s); discriminate.
Qed.

(** The components of a split do not contain the separator. *)
Lemma split_components sep s :
  Forall (fun p => Py.contains sep p = false) (Py.split sep s).
Proof.
  induction s as [|a s IH]; simpl.
  - repeat constructor.
  - destruct (Ascii.eqb a sep) eqn:Ha.
    + constructor; [reflexivity | exact IH].
    + destruct (Py.split sep s) as [|p ps].
      * repeat constructor. simpl. rewrite Ha. reflexivity.
      * inversion IH; subst. constructor; [|assumption].
        simpl. rewrite Ha. assumption.
Qed.

Lemma split_whole sep s : Py.contains sep s = false -> Py.split sep s = [s].
Proof.
  induction s as [|a s IH]; simpl; [reflexivity|].
  intros H. apply orb_false_iff in H as [Ha Hs]. rewrite Ha, (IH Hs).
  reflexivity.
Qed.

Lemma split_append sep a b :
  Py.split sep (a ++ String sep b) = (Py.split sep a ++ Py.split sep b)%list.
Proof.
  induction a as [|x a IH].
  - simpl. rewrite Ascii.eqb_refl. reflexivity.
  - change (String x a ++ String sep b) with (String x (a ++ String sep b)).
    simpl. rewrite IH. destruct (Ascii.eqb x sep); [reflexivity|].
    pose proof (split_not_nil sep a) as Hne.
    destruct (Py.split sep a); [contradiction | reflexivity].
Qed.

Lemma name_no_separator p : Py.contains "/"%char (PurePath.name p) = false.
Proof.
  unfold PurePath.name, PurePath.parts.
  apply (last_Forall (fun q => Py.contains "/"%char q = false)); [|reflexivity].
  apply List.Forall_forall. intros q Hq.
  apply List.filter_In in Hq as [Hq _].
  pose proof (split_components "/"%char p) as HF.
  rewrite List.Forall_forall in HF. apply HF, Hq.
Qed.

(** The name of [dir/base] is [base]. *)
Lemma name_of_join dir base :
  Py.contains "/"%char base = false ->
  base <> EmptyString -> base <> "." ->
  PurePath.name (dir ++ "/" ++ base) = base.
Proof.
  intros Hsep Hne Hdot. unfold PurePath.name, PurePath.parts.
  change ("/" ++ base) with (String "/"%char base).
  rewrite split_append, (split_whole _ _ Hsep), List.filter_app.
  simpl List.filter at 2.
  destruct (String.eqb_spec base EmptyString); [contradiction|].
  destruct (String.eqb_spec base "."); [contradiction|].
  simpl. apply List.last_last.
Qed.

Lemma rfind_last c pre rest :
  Py.contains c rest = false ->
  Py.rfind c (pre ++ String c rest) = Py.len pre.
Proof.
  intros Hrest. unfold Py.len. induction pre as [|a pre IH].
  - simpl. rewrite (rfind_absent _ _ Hrest), Ascii.eqb_refl. reflexivity.
  - change (String a pre ++ String c rest) with (String a (pre ++ String c rest)).
    simpl Py.rfind. rewrite IH.
    destruct (0 <=? Z.of_nat (String.length pre)) eqn:Hi.
    + cbn [String.length]. lia.
    + apply Z.leb_gt in Hi. lia.
Qed.

Lemma drop_append pre s : Py.drop (String.length pre) (pre ++ s) = s.
Proof. induction pre as [|a pre IH]; [reflexivity | exact IH]. Qed.

(** Appending an extension, or nothing, to a name without dots gives a name
    with exactly that suffix. *)
Lemma suffix_of_name_append stem suf :
  stem <> EmptyString ->
  Py.contains "."%char stem = false ->
  suf = EmptyString \/ is_extension suf ->
  PurePath.suffix_of_name (stem ++ suf) = suf.
Proof.
  intros Hne Hdot [-> | (rest & -> & Hrest & Hnodot & _)];
    unfold PurePath.suffix_of_name.
  - rewrite <- append_empty_r, (rfind_absent _ _ Hdot). reflexivity.
  - rewrite (rfind_last _ stem rest Hnodot), len_append.
    assert (0 < Py.len stem).
    { unfold Py.len. destruct stem; [contradiction | cbn [String.length]; lia]. }
    assert (0 < Py.len rest).
    { unfold Py.len. destruct rest; [contradiction | cbn [String.length]; lia]. }
    replace (0 <? Py.len stem) with true by (symmetry; apply Z.ltb_lt; lia).
    replace (Py.len stem <? Py.len stem + Py.len (String "."%char rest) - 1)
      with true.
    2:{ symmetry. apply Z.ltb_lt. unfold Py.len at 3. cbn [String.length].
        unfold Py.len in *. lia. }
    simpl. unfold Py.slice_from, Py.len. rewrite Nat2Z.id. apply drop_append.
Qed.

(** ** The handler, step by step *)

Section Handler.

Context (E : Env).

Lemma get_model_loaded w m :
  _model w = Some m -> get_model E w = (Return (Some m), w).
Proof.
  intros H. unfold get_model, bind, read_model, ret. simpl.
  rewrite H. simpl. rewrite H. reflexivity.
Qed.

Lemma get_model_unloaded w :
  _model w = None ->
  get_model E w =
    match from_pretrained E MODEL_ID (loads w) (fs w) with
    | (Return m, files) =>
        (Return (Some m),
         write_stdout LOADED
           (set_model (Some m)
              (count_load (set_fs files (write_stdout LOADING w)))))
    | (Raise e, files) =>
        (Raise e, count_load (set_fs files (write_stdout LOADING w)))
    end.
Proof.
  intros H. unfold get_model, bind, read_model, print, call_from_pretrained,
    store_model.
  rewrite H. simpl.
  destruct (from_pretrained E MODEL_ID (loads w) (fs w)) as [[m|e] files];
    reflexivity.
Qed.

(** [get_model] never returns [None]. *)
Lemma get_model_not_None w w' : get_model E w <> (Return None, w').
Proof.
  destruct (_model w) as [m|] eqn:Hm.
  - rewrite (get_model_loaded _ _ Hm). congruence.
  - rewrite (get_model_unloaded _ Hm).
    destruct (from_pretrained _ _ _ _) as [[m|e] files]; congruence.
Qed.

Lemma mkstemp_inner_created suf files seq attempts p files' :
  mkstemp_inner E suf files seq attempts = (Return p, files') ->
  files !! p = None /\ files' = <[p := []]> files /\
  exists k, p = gettempdir E ++ "/" ++ "tmp" ++ tmp_names E k ++ suf.
Proof.
  revert seq. induction attempts as [|n IH]; simpl; intros seq H; [discriminate|].
  destruct (open_fault E _); [discriminate|].
  destruct (files !! (gettempdir E ++ _)) eqn:Hfile.
  - eapply IH; eassumption.
  - inversion H; subst. split; [exact Hfile|]. split; [reflexivity|]. eauto.
Qed.

Lemma mkstemp_inner_failed suf files seq attempts e files' :
  mkstemp_inner E suf files seq attempts = (Raise e, files') -> files' = files.
Proof.
  revert seq. induction attempts as [|n IH]; simpl; intros seq H.
  - congruence.
  - destruct (open_fault E _); [congruence|].
    destruct (files !! _); [eapply IH; eassumption | discriminate].
Qed.

(** The handler is the [with] block followed by the guarded part. *)
Lemma transcribe_unfold audio w :
  transcribe E audio w =
    match save_upload E audio w with
    | (Return p, w1) => transcribe_saved E p w1
    | (Raise e, w1) => (Raise (Propagated e), w1)
    end.
Proof.
  unfold transcribe, bind, propagate.
  destruct (save_upload E audio w) as [[p|e] w1]; reflexivity.
Qed.

(** What a completed [with] block leaves behind. *)
Lemma save_upload_completed audio w p w1 :
  save_upload E audio w = (Return p, w1) ->
  exists k data,
    p = gettempdir E ++ "/" ++ "tmp" ++ tmp_names E k ++ upload_suffix audio /\
    upload_read audio = Return data /\
    fs w !! p = None /\
    w1 = set_fs (<[p := data]> (<[p := []]> (fs w))) w.
Proof.
  unfold save_upload, bind, NamedTemporaryFile, audio_read, tmp_write, ret.
  destruct (mkstemp_inner _ _ _ _ _) as [[q|e] files] eqn:Hmk; [|discriminate].
  apply mkstemp_inner_created in Hmk as (Hnew & -> & k & Hk).
  destruct (upload_read audio) as [data|e] eqn:Hread; [|discriminate].
  simpl. destruct (write_fault E q data) as [[n e]|]; [discriminate|].
  intros H. inversion H; subst p w1. exists k, data. done.
Qed.

(** The artifact is gone when the guarded part is left, whatever happened
    inside it. *)
Lemma transcribe_saved_unlinks p w :
  fs (snd (transcribe_saved E p w)) !! p = None.
Proof.
  unfold transcribe_saved, try_finally.
  destruct (try_except E p w) as [r w1].
  unfold os_unlink. destruct (fs w1 !! p) eqn:Hp; simpl.
  - apply lookup_delete_eq.
  - exact Hp.
Qed.

(** The outcome of the guarded part, from the outcome of [try]/[except]. *)
Lemma transcribe_saved_outcome p w r w1 :
  try_except E p w = (r, w1) ->
  transcribe_saved E p w =
    match fs w1 !! p with
    | Some _ => (r, set_fs (delete p (fs w1)) w1)
    | None => (Raise (Propagated (FileNotFoundError p)), w1)
    end.
Proof.
  intros H. unfold transcribe_saved, try_finally, os_unlink. rewrite H.
  destruct (fs w1 !! p); reflexivity.
Qed.

(** Where an exception of the [try] body comes from: model acquisition, the
    transcription call on the acquired model, or the construction of the
    response from a result with a number that is not finite. *)
Lemma try_body_raises p w e w1 :
  try_body E p w = (Raise e, w1) ->
  get_model E w = (Raise e, w1) \/
  (exists m w', get_model E w = (Return (Some m), w') /\
     model_transcribe E m p (fs w') = (Raise e, fs w1)) \/
  (exists m w' result, get_model E w = (Return (Some m), w') /\
     model_transcribe E m p (fs w') = (Return result, fs w1) /\
     json_compliant (response_content result) = false /\
     e = OutOfRangeFloat).
Proof.
  unfold try_body, bind.
  destruct (get_model E w) as [[[m|]|e'] w'] eqn:Hg.
  - unfold call_transcribe, new_JSONResponse.
    destruct (model_transcribe E m p (fs w')) as [[r|e'] files] eqn:Ht.
    + destruct (json_compliant (response_content r)) eqn:Hc; [discriminate|].
      intros H. inversion H; subst. right. right. exists m, w', r.
      simpl. auto.
    + intros H. inversion H; subst. right. left. exists m, w'.
      split; [reflexivity|]. rewrite Ht. reflexivity.
  - exfalso. exact (get_model_not_None _ _ Hg).
  - intros H. inversion H; subst. left. reflexivity.
Qed.

End Handler.

(** ** Cleanup of the temporary artifact *)

(** C2. Whenever the [with] block has completed, so that the artifact exists
    under [tmp_path], the file no longer exists when the handler is left,
    whether it returns a response, raises the [HTTPException] made from a
    failure of model construction or inference, or lets any other fault
    through: the [finally] clause runs on every exit of the [try]. *)
Theorem C2_artifact_deleted_on_every_exit E audio w p w1 :
  save_upload E audio w = (Return p, w1) ->
  is_Some (fs w1 !! p) /\
  fs (snd (transcribe E audio w)) !! p = None.
Proof.
  intros Hsave. split.
  - apply save_upload_completed in Hsave as (k & data & _ & _ & _ & ->).
    simpl. rewrite lookup_insert_eq. eauto.
  - rewrite transcribe_unfold, Hsave. apply transcribe_saved_unlinks.
Qed.

Lemma C2_witness :
  is_Some (fs (snd (save_upload Fixtures.offline Fixtures.clip Fixtures.w0))
             !! "/tmp/tmpk3x9_qa1.flac") /\
  fs (snd (transcribe Fixtures.offline Fixtures.clip Fixtures.w0))
    !! "/tmp/tmpk3x9_qa1.flac" = None.
Proof.
  apply (C2_artifact_deleted_on_every_exit Fixtures.offline Fixtures.clip
           Fixtures.w0 "/tmp/tmpk3x9_qa1.flac").
  vm_compute. reflexivity.
Defined.

(** The three kinds of exit, on concrete runs: a response, an
    [HTTPException], an exception that is not caught. *)
Example cleanup_after_success :
  let '(r, w) := transcribe Fixtures.quiet Fixtures.clip Fixtures.w0 in
  (exists resp, r = Return resp) /\ fs w = ∅.
Proof. vm_compute. eauto. Qed.

Example cleanup_after_model_failure :
  let '(r, w) := transcribe Fixtures.offline Fixtures.clip Fixtures.w0 in
  r = Raise (HTTPException 500 "model assets unreachable") /\ fs w = ∅.
Proof. vm_compute. eauto. Qed.

Example cleanup_after_interrupt :
  let '(r, w) := transcribe Fixtures.interrupted Fixtures.clip Fixtures.w0 in
  r = Raise (Propagated Fixtures.KeyboardInterrupt) /\ fs w = ∅.
Proof. vm_compute. eauto. Qed.

(** ** Failures of the model *)

(** C3, as the code has it. An exception [e] raised by model acquisition or
    by the transcription call, when it is an instance of [Exception], is
    caught and the handler raises [HTTPException(500, detail=str(e))]; this
    is what the caller observes when the artifact is still there for the
    cleanup. Exceptions outside [Exception] are not caught by the handler. *)
Theorem C3_exception_becomes_http_500 E audio w p w1 e w2 :
  save_upload E audio w = (Return p, w1) ->
  (get_model E w1 = (Raise e, w2) \/
   exists m w', get_model E w1 = (Return (Some m), w') /\
     call_transcribe E (Some m) p w' = (Raise e, w2)) ->
  exc_is_Exception e = true ->
  is_Some (fs w2 !! p) ->
  transcribe E audio w =
    (Raise (HTTPException 500 (exc_str e)), set_fs (delete p (fs w2)) w2).
Proof.
  intros Hsave Hraise Hexc [data Hfile].
  assert (Hbody : try_body E p w1 = (Raise e, w2)).
  { unfold try_body, bind.
    destruct Hraise as [Hg | (m & w' & Hg & Ht)]; rewrite Hg; [reflexivity|].
    rewrite Ht. reflexivity. }
  rewrite transcribe_unfold, Hsave.
  rewrite (transcribe_saved_outcome E p w1
             (Raise (HTTPException 500 (exc_str e))) w2).
  - rewrite Hfile. reflexivity.
  - unfold try_except, try_except_Exception. rewrite Hbody, Hexc. reflexivity.
Qed.

Lemma C3_witness :
  transcribe Fixtures.offline Fixtures.clip Fixtures.w0 =
    (Raise (HTTPException 500 "model assets unreachable"),
     mkWorld ∅ ∅ None 1 [LOADING]).
Proof.
  pose proof (C3_exception_becomes_http_500 Fixtures.offline Fixtures.clip
                Fixtures.w0 "/tmp/tmpk3x9_qa1.flac"
                (snd (save_upload Fixtures.offline Fixtures.clip Fixtures.w0))
                Fixtures.ConnectionError
                (snd (get_model Fixtures.offline
                        (snd (save_upload Fixtures.offline Fixtures.clip
                                Fixtures.w0))))) as H.
  rewrite H.
  - vm_compute. reflexivity.
  - vm_compute. reflexivity.
  - left. vm_compute. reflexivity.
  - reflexivity.
  - vm_compute. eauto.
Defined.

(** The claim fails for an exception that is not an instance of
    [Exception]: the construction is interrupted, and the interrupt leaves
    the handler as it is, not as an [HTTPException]. *)
Lemma C3_counterexample :
  let w1 := snd (save_upload Fixtures.interrupted Fixtures.clip Fixtures.w0) in
  fst (get_model Fixtures.interrupted w1) = Raise Fixtures.KeyboardInterrupt /\
  fst (transcribe Fixtures.interrupted Fixtures.clip Fixtures.w0) =
    Raise (Propagated Fixtures.KeyboardInterrupt) /\
  fst (transcribe Fixtures.interrupted Fixtures.clip Fixtures.w0) <>
    Raise (HTTPException 500 (exc_str Fixtures.KeyboardInterrupt)).
Proof.
  vm_compute. repeat split; congruence.
Qed.

(** In general an exception of the [try] body that is not an instance of
    [Exception] passes the [except] clause and leaves the handler unchanged
    once the artifact has been unlinked. *)
Lemma base_exception_propagates E audio w p w1 e w2 :
  save_upload E audio w = (Return p, w1) ->
  try_body E p w1 = (Raise e, w2) ->
  exc_is_Exception e = false ->
  is_Some (fs w2 !! p) ->
  transcribe E audio w =
    (Raise (Propagated e), set_fs (delete p (fs w2)) w2).
Proof.
  intros Hsave Hbody Hexc [data Hfile].
  rewrite transcribe_unfold, Hsave.
  rewrite (transcribe_saved_outcome E p w1 (Raise (Propagated e)) w2).
  - rewrite Hfile. reflexivity.
  - unfold try_except, try_except_Exception. rewrite Hbody, Hexc. reflexivity.
Qed.

(** It also fails when the cleanup raises: the transcription removes its
    input and fails with an instance of [Exception]; the [HTTPException] is
    replaced by the [FileNotFoundError] of [os.unlink]. *)
Example http_500_replaced_by_cleanup_failure :
  fst (transcribe Fixtures.consuming_failing Fixtures.clip Fixtures.w0) =
    Raise (Propagated (FileNotFoundError "/tmp/tmpk3x9_qa1.flac")).
Proof. vm_compute. reflexivity. Qed.

(** ** Failure of the cleanup *)

(** C6, as the code has it. [os.unlink] sits unguarded in the [finally]
    clause: when the file is still there, the caller observes the outcome of
    the [try]/[except]; when the file is gone, the [FileNotFoundError] of
    [os.unlink] replaces that outcome, response and [HTTPException] alike. *)
Theorem C6_cleanup_failure_replaces_outcome E audio w p w1 r w2 :
  save_upload E audio w = (Return p, w1) ->
  try_except E p w1 = (r, w2) ->
  (is_Some (fs w2 !! p) -> fst (transcribe E audio w) = r) /\
  (fs w2 !! p = None ->
   fst (transcribe E audio w) = Raise (Propagated (FileNotFoundError p))).
Proof.
  intros Hsave Htry. rewrite transcribe_unfold, Hsave.
  rewrite (transcribe_saved_outcome E p w1 r w2 Htry).
  split.
  - intros [data ->]. reflexivity.
  - intros ->. reflexivity.
Qed.

Lemma C6_witness :
  fst (transcribe Fixtures.consuming Fixtures.clip Fixtures.w0) =
    Raise (Propagated (FileNotFoundError "/tmp/tmpk3x9_qa1.flac")).
Proof.
  pose (w1 := snd (save_upload Fixtures.consuming Fixtures.clip Fixtures.w0)).
  refine (proj2 (C6_cleanup_failure_replaces_outcome Fixtures.consuming
                   Fixtures.clip Fixtures.w0 "/tmp/tmpk3x9_qa1.flac" w1
                   (fst (try_except Fixtures.consuming "/tmp/tmpk3x9_qa1.flac" w1))
                   (snd (try_except Fixtures.consuming "/tmp/tmpk3x9_qa1.flac" w1))
                   _ _) _);
    vm_compute; reflexivity.
Defined.

(** The claim fails when the artifact has been removed before the cleanup:
    the [try] produced the response, and the caller gets the exception of
    [os.unlink] instead. *)
Lemma C6_counterexample :
  let w1 := snd (save_upload Fixtures.consuming Fixtures.clip Fixtures.w0) in
  fst (try_except Fixtures.consuming "/tmp/tmpk3x9_qa1.flac" w1) =
    Return (mkJSONResponse 200 (response_content Fixtures.hello)) /\
  fst (transcribe Fixtures.consuming Fixtures.clip Fixtures.w0) =
    Raise (Propagated (FileNotFoundError "/tmp/tmpk3x9_qa1.flac")).
Proof.
  vm_compute. split; reflexivity.
Qed.

(** ** Failure while the upload is saved *)

(** A failed read leaves the [with] block by the exception; the block is not
    inside the [try], so the file created by [NamedTemporaryFile] stays. *)
Lemma read_failure_leaves_file E audio w p files e :
  mkstemp_inner E (upload_suffix audio) (fs w) 0 (TMP_MAX E) = (Return p, files) ->
  upload_read audio = Raise e ->
  transcribe E audio w = (Raise (Propagated e), set_fs files w) /\
  files !! p = Some [].
Proof.
  intros Hmk Hread. split.
  - rewrite transcribe_unfold.
    unfold save_upload, bind, NamedTemporaryFile, audio_read.
    rewrite Hmk, Hread. reflexivity.
  - apply mkstemp_inner_created in Hmk as (_ & -> & _).
    apply lookup_insert_eq.
Qed.

(** A failed write leaves the bytes that reached the file. *)
Lemma write_failure_leaves_file E audio w p files data k e :
  mkstemp_inner E (upload_suffix audio) (fs w) 0 (TMP_MAX E) = (Return p, files) ->
  upload_read audio = Return data ->
  write_fault E p data = Some (k, e) ->
  let w' := snd (transcribe E audio w) in
  fst (transcribe E audio w) = Raise (Propagated e) /\
  fs w' !! p = Some (List.firstn k data) /\
  loads w' = loads w.
Proof.
  intros Hmk Hread Hfault. rewrite transcribe_unfold.
  unfold save_upload, bind, NamedTemporaryFile, audio_read, tmp_write.
  rewrite Hmk, Hread. simpl. rewrite Hfault. simpl.
  split; [reflexivity|]. split; [apply lookup_insert_eq | reflexivity].
Qed.

(** C5. The upload cannot be read. The failure leaves the handler before the
    model is touched, but the empty file created for the artifact is still on
    disk afterwards. *)
Theorem C5_failed_upload_leaves_artifact :
  let '(r, w) := transcribe Fixtures.quiet Fixtures.truncated Fixtures.w0 in
  r = Raise (Propagated Fixtures.ClientDisconnect) /\
  loads w = 0%nat /\ _model w = None /\ stdout w = [] /\
  fs w !! "/tmp/tmpk3x9_qa1.flac" = Some [].
Proof. vm_compute. repeat split; reflexivity. Qed.

(** When [os.open] refuses the name, nothing is created and nothing else
    happens. *)
Example refused_name_creates_nothing :
  transcribe Fixtures.long_names Fixtures.clip Fixtures.w0 =
    (Raise (Propagated Fixtures.NameTooLong), Fixtures.w0).
Proof. vm_compute. reflexivity. Qed.

(** The same with a disk that fills up: two bytes of the upload stay. *)
Example failed_write_leaves_partial_artifact :
  let '(r, w) := transcribe Fixtures.full_disk Fixtures.blob Fixtures.w0 in
  r = Raise (Propagated Fixtures.DiskFull) /\
  loads w = 0%nat /\
  fs w !! "/tmp/tmpk3x9_qa1.webm" = Some [x1a; x45].
Proof. vm_compute. repeat split; reflexivity. Qed.

(** ** The response *)







Example response_with_segments :
  response_content Fixtures.hello =
    JObject [("text", JString "hello world");
             ("segments",
              JArray [JObject [("start", JNumber (Finite 0));
                               ("end", JNumber (Finite (3 # 2)));
                               ("text", JString "hello")];
                      JObject [("start", JNumber (Finite (3 # 2)));
                               ("end", JNumber (Finite 2));
                               ("text", JString "world")]])].
Proof. reflexivity. Qed.

Example response_without_segments :
  response_content (mkResult "hi" NoAttr) =
    JObject [("text", JString "hi"); ("segments", JArray [])].
Proof. reflexivity. Qed.

(** ** The artifact's extension *)

Example suffix_flac : PurePath.suffix "clip.flac" = ".flac".
Proof. reflexivity. Qed.

Example suffix_none : PurePath.suffix "clip" = EmptyString.
Proof. reflexivity. Qed.

Example suffix_in_directory : PurePath.suffix "up.loads/rec.tar.gz" = ".gz".
Proof. reflexivity. Qed.

Example suffix_hidden : PurePath.suffix ".bashrc" = EmptyString.
Proof. reflexivity. Qed.

Example suffix_trailing_dot : PurePath.suffix "clip." = EmptyString.
Proof. reflexivity. Qed.

Lemma upload_suffix_named audio f :
  filename audio = Some f -> f <> EmptyString -> upload_suffix audio = PurePath.suffix f.
Proof.
  intros Hf Hne. unfold upload_suffix. rewrite Hf. simpl.
  destruct (String.eqb_spec f EmptyString); [contradiction | reflexivity].
Qed.

Lemma upload_suffix_default audio :
  filename audio = None \/ filename audio = Some EmptyString ->
  upload_suffix audio = ".webm".
Proof.
  intros [H | H]; unfold upload_suffix; rewrite H; reflexivity.
Qed.

Lemma upload_suffix_shape audio :
  upload_suffix audio = EmptyString \/ is_extension (upload_suffix audio).
Proof.
  unfold upload_suffix. destruct (Py.truthy_str (filename audio)).
  - apply suffix_of_name_shape, name_no_separator.
  - right. exists "webm". repeat split. discriminate.
Qed.

(** Read back with [pathlib], the artifact's path has the suffix it was
    created with. *)
Lemma artifact_suffix E k suf :
  plain_names E ->
  suf = EmptyString \/ is_extension suf ->
  PurePath.suffix (gettempdir E ++ "/" ++ "tmp" ++ tmp_names E k ++ suf) = suf.
Proof.
  intros Hnames Hsuf. destruct (Hnames k) as [Hdot Hsep].
  unfold PurePath.suffix. rewrite name_of_join.
  - change ("tmp" ++ tmp_names E k ++ suf)
      with (("tmp" ++ tmp_names E k) ++ suf).
    apply suffix_of_name_append; [discriminate | | exact Hsuf].
    rewrite contains_append, Hdot. reflexivity.
  - rewrite !contains_append, Hsep.
    destruct Hsuf as [-> | (rest & -> & _ & _ & Hrest)]; [reflexivity|].
    simpl. exact Hrest.
  - discriminate.
  - discriminate.
Qed.

(** C8. The artifact is created under a name that ends in the suffix chosen
    for the upload: the suffix of the upload's filename when there is a
    filename ([.flac] for [clip.flac]), and [.webm] when no filename is
    supplied. With temporary names from the alphabet of [tempfile], that
    suffix is the extension [pathlib] reads back from the artifact's path. *)
Theorem C8_artifact_extension E audio w p w1 :
  save_upload E audio w = (Return p, w1) ->
  (exists k, p = gettempdir E ++ "/" ++ "tmp" ++ tmp_names E k
                   ++ upload_suffix audio) /\
  (plain_names E -> PurePath.suffix p = upload_suffix audio) /\
  (forall f, filename audio = Some f -> f <> EmptyString ->
     upload_suffix audio = PurePath.suffix f) /\
  (filename audio = Some "clip.flac" -> upload_suffix audio = ".flac") /\
  (filename audio = None -> upload_suffix audio = ".webm").
Proof.
  intros Hsave.
  apply save_upload_completed in Hsave as (k & data & Hp & _).
  split; [eauto|]. split.
  { intros Hnames. rewrite Hp.
    apply artifact_suffix; [exact Hnames | apply upload_suffix_shape]. }
  split; [apply upload_suffix_named|]. split.
  - intros H. rewrite (upload_suffix_named audio "clip.flac" H); [reflexivity|].
    discriminate.
  - intros H. apply upload_suffix_default. left. exact H.
Qed.

Lemma C8_witness :
  exists k, "/tmp/tmpk3x9_qa1.flac" =
    "/tmp" ++ "/" ++ "tmp" ++ Fixtures.name_of k ++ upload_suffix Fixtures.clip.
Proof.
  refine (proj1 (C8_artifact_extension Fixtures.quiet Fixtures.clip Fixtures.w0
                   "/tmp/tmpk3x9_qa1.flac"
                   (snd (save_upload Fixtures.quiet Fixtures.clip Fixtures.w0))
                   _)).
  vm_compute. reflexivity.
Defined.

Example artifact_of_unnamed_upload :
  fst (save_upload Fixtures.quiet Fixtures.blob Fixtures.w0) =
    Return "/tmp/tmpk3x9_qa1.webm".
Proof. vm_compute. reflexivity. Qed.

(** C10. A filename that is present, non-empty and has no dot gives the
    empty suffix, not [.webm]: the artifact's name is the bare temporary
    name, without extension. The default [.webm] is taken when the filename
    is absent or empty, and only then: any other upload with suffix [.webm]
    has a filename whose last component ends in [.webm]. *)
Theorem C10_no_extension_gives_empty_suffix E audio :
  (forall f, filename audio = Some f -> f <> EmptyString ->
     Py.contains "."%char f = false ->
     upload_suffix audio = EmptyString /\ upload_suffix audio <> ".webm" /\
     forall w p w1, save_upload E audio w = (Return p, w1) ->
       (exists k, p = gettempdir E ++ "/" ++ "tmp" ++ tmp_names E k) /\
       (plain_names E -> PurePath.suffix p = EmptyString)) /\
  (filename audio = None \/ filename audio = Some EmptyString ->
     upload_suffix audio = ".webm") /\
  (upload_suffix audio = ".webm" ->
     filename audio = None \/ filename audio = Some EmptyString \/
     exists f pre, filename audio = Some f /\
       PurePath.name f = pre ++ ".webm").
Proof.
  split; [|split].
  - intros f Hf Hne Hdot.
    assert (Hs : upload_suffix audio = EmptyString).
    { rewrite (upload_suffix_named audio f Hf Hne). apply suffix_no_dot, Hdot. }
    split; [exact Hs|]. split; [rewrite Hs; discriminate|].
    intros w p w1 Hsave.
    apply save_upload_completed in Hsave as (k & data & Hp & _).
    split.
    + exists k. rewrite Hp, Hs.
      rewrite <- (append_empty_r (tmp_names E k)). reflexivity.
    + intros Hnames. rewrite Hp, Hs.
      apply artifact_suffix; [exact Hnames | left; reflexivity].
  - apply upload_suffix_default.
  - intros Hs. destruct (filename audio) as [f|] eqn:Hf; [|left; reflexivity].
    right. destruct (String.eqb_spec f EmptyString) as [-> | Hne];
      [left; reflexivity|].
    right. destruct (suffix_is_tail f) as [pre Hpre].
    exists f, pre. split; [reflexivity|].
    rewrite <- Hs, (upload_suffix_named audio f Hf Hne). exact Hpre.
Qed.

Lemma C10_witness :
  upload_suffix (mkUpload (Some "clip") None (Return [])) = EmptyString.
Proof.
  refine (proj1 (proj1 (C10_no_extension_gives_empty_suffix Fixtures.quiet
                          (mkUpload (Some "clip") None (Return [])))
                   "clip" _ _ _)).
  - reflexivity.
  - discriminate.
  - reflexivity.
Defined.

Example artifact_of_upload_without_extension :
  fst (save_upload Fixtures.quiet (mkUpload (Some "clip") None (Return []))
         Fixtures.w0) = Return "/tmp/tmpk3x9_qa1".
Proof. vm_compute. reflexivity. Qed.

(** ** The health endpoint *)

(** C9. [health] returns the fixed body [{"status": "ok", "model":
    "parakeet-tdt-0.6b-v3"}] in every world and leaves the world as it is:
    the body is the same before and after the model has been loaded, it does
    not depend on the world, and no construction is counted. *)
Theorem C9_health_fixed E w :
  health w =
    (Return (JObject [("status", JString "ok");
                      ("model", JString "parakeet-tdt-0.6b-v3")]), w) /\
  fst (health (snd (get_model E w))) = fst (health w) /\
  (forall w', fst (health w') = fst (health w)) /\
  loads (snd (health w)) = loads w /\ _model (snd (health w)) = _model w.
Proof. repeat split. Qed.

(** ** The model handle *)

Section Handle.

Context (E : Env).

Lemma same_handle_refl w : same_handle w w.
Proof. split; reflexivity. Qed.

Lemma same_handle_trans w1 w2 w3 :
  same_handle w1 w2 -> same_handle w2 w3 -> same_handle w1 w3.
Proof. unfold same_handle. intros [-> ->] [-> ->]. split; reflexivity. Qed.

(** Steps that only touch the filesystem or standard output. *)
Ltac handle_untouched := split; reflexivity.

Lemma save_upload_same_handle audio w : same_handle w (snd (save_upload E audio w)).
Proof.
  unfold save_upload, bind, NamedTemporaryFile, audio_read, tmp_write, ret.
  destruct (mkstemp_inner _ _ _ _ _) as [[q|e] files]; [|handle_untouched].
  destruct (upload_read audio) as [data|e]; [|handle_untouched].
  simpl. destruct (write_fault E q data) as [[n e]|]; handle_untouched.
Qed.

Lemma os_unlink_same_handle p w : same_handle w (snd (os_unlink p w)).
Proof.
  unfold os_unlink. destruct (fs w !! p); handle_untouched.
Qed.

Lemma call_transcribe_same_handle model p w :
  same_handle w (snd (call_transcribe E model p w)).
Proof.
  destruct model as [m|]; simpl; [|handle_untouched].
  destruct (model_transcribe E m p (fs w)); handle_untouched.
Qed.

(** With a loaded model nothing in the guarded part touches the handle. *)
Lemma transcribe_saved_same_handle p w m :
  _model w = Some m -> same_handle w (snd (transcribe_saved E p w)).
Proof.
  intros Hm. unfold transcribe_saved, try_finally.
  destruct (try_except E p w) as [r w1] eqn:Htry.
  assert (H1 : same_handle w w1).
  { revert Htry. unfold try_except, try_except_Exception, try_body, bind.
    rewrite (get_model_loaded E w m Hm).
    pose proof (call_transcribe_same_handle (Some m) p w) as Hc.
    destruct (call_transcribe E (Some m) p w) as [[res|e] w'].
    - unfold new_JSONResponse.
      destruct (json_compliant (response_content res)); simpl;
        intros H; inversion H; subst; exact Hc.
    - destruct (exc_is_Exception e); intros H; inversion H; subst; exact Hc. }
  pose proof (os_unlink_same_handle p w1) as H2.
  destruct (os_unlink p w1) as [[u|e] w2]; simpl in *;
    eapply same_handle_trans; eassumption.
Qed.

Lemma handle_same_handle ev w m :
  _model w = Some m -> same_handle w (handle E ev w).
Proof.
  intros Hm. destruct ev as [| |audio|]; simpl.
  - unfold startup, bind, print. simpl.
    destruct (bool_decide _); [|handle_untouched].
    unfold bind. rewrite (get_model_loaded E _ m) by exact Hm.
    handle_untouched.
  - apply same_handle_refl.
  - rewrite transcribe_unfold.
    pose proof (save_upload_same_handle audio w) as Hs.
    destruct (save_upload E audio w) as [[p|e] w1]; simpl in *; [|exact Hs].
    eapply same_handle_trans; [exact Hs|].
    apply (transcribe_saved_same_handle p w1 m).
    destruct Hs as [-> _]. exact Hm.
  - rewrite (get_model_loaded E w m Hm). apply same_handle_refl.
Qed.

Lemma handle_all_same_handle evs w m :
  _model w = Some m -> same_handle w (handle_all E evs w).
Proof.
  revert w. induction evs as [|ev evs IH]; intros w Hm; simpl.
  - apply same_handle_refl.
  - pose proof (handle_same_handle ev w m Hm) as H1.
    eapply same_handle_trans; [exact H1|]. apply IH.
    destruct H1 as [-> _]. exact Hm.
Qed.

(** A call that returns a model leaves it in the global. *)
Lemma get_model_returns_global w m w1 :
  get_model E w = (Return (Some m), w1) -> _model w1 = Some m.
Proof.
  destruct (_model w) as [m'|] eqn:Hm.
  - rewrite (get_model_loaded E w m' Hm). intros H. inversion H; subst.
    exact Hm.
  - rewrite (get_model_unloaded E w Hm).
    destruct (from_pretrained _ _ _ _) as [[m'|e] files]; intros H;
      inversion H; subst; reflexivity.
Qed.

End Handle.

(** C7. Once [get_model] has returned a model, every later call returns the
    same instance and constructs nothing, whatever handlers run in between
    ([startup], [health], [transcribe], [get_model]). When the construction
    raises, [_model] stays [None], and the next call invokes
    [from_pretrained] again. *)
Theorem C7_singleton_handle E w :
  (forall m w1, get_model E w = (Return (Some m), w1) ->
     forall evs,
       let w2 := handle_all E evs w1 in
       get_model E w2 = (Return (Some m), w2) /\ loads w2 = loads w1) /\
  (forall e files, _model w = None ->
     from_pretrained E MODEL_ID (loads w) (fs w) = (Raise e, files) ->
     exists w1, get_model E w = (Raise e, w1) /\ _model w1 = None /\
       loads w1 = S (loads w) /\
       loads (snd (get_model E w1)) = S (S (loads w))).
Proof.
  split.
  - intros m w1 Hg evs w2.
    pose proof (get_model_returns_global E w m w1 Hg) as Hm.
    destruct (handle_all_same_handle E evs w1 m Hm) as [Hm2 Hl2].
    fold w2 in Hm2, Hl2. split; [|exact Hl2].
    apply get_model_loaded. rewrite Hm2. exact Hm.
  - intros e files Hm Hfail. rewrite (get_model_unloaded E w Hm), Hfail.
    set (w1 := count_load (set_fs files (write_stdout LOADING w))).
    exists w1. split; [reflexivity|]. split; [exact Hm|].
    split; [reflexivity|].
    rewrite (get_model_unloaded E w1 Hm).
    destruct (from_pretrained E MODEL_ID (loads w1) (fs w1))
      as [[m'|e'] files']; reflexivity.
Qed.

Lemma C7_witness :
  (let w2 := handle_all Fixtures.quiet
               [EvTranscribe Fixtures.clip; EvHealth; EvGetModel]
               (snd (get_model Fixtures.quiet Fixtures.w0)) in
   get_model Fixtures.quiet w2 = (Return (Some 0%nat), w2) /\
   loads w2 = loads (snd (get_model Fixtures.quiet Fixtures.w0))) /\
  (exists w1, get_model Fixtures.flaky Fixtures.w0 =
                (Raise Fixtures.ConnectionError, w1) /\
     _model w1 = None /\ loads w1 = 1%nat /\
     loads (snd (get_model Fixtures.flaky w1)) = 2%nat).
Proof.
  split.
  - apply (proj1 (C7_singleton_handle Fixtures.quiet Fixtures.w0) 0%nat).
    vm_compute. reflexivity.
  - apply (proj2 (C7_singleton_handle Fixtures.flaky Fixtures.w0)
             Fixtures.ConnectionError ∅); reflexivity.
Defined.

(** After a failed construction the next call can succeed. *)
Example retry_after_failure :
  let w1 := snd (get_model Fixtures.flaky Fixtures.w0) in
  fst (get_model Fixtures.flaky Fixtures.w0) = Raise Fixtures.ConnectionError /\
  fst (get_model Fixtures.flaky w1) = Return (Some 1%nat) /\
  loads (snd (get_model Fixtures.flaky w1)) = 2%nat.
Proof. vm_compute. repeat split; reflexivity. Qed.

(** ** Concurrent first calls *)

Section Interleaving.

Import Threads.

Context (E : Env).

Lemma run_app s1 s2 c : run E (s1 ++ s2)%list c = run E s2 (run E s1 c).
Proof. unfold run. apply List.fold_left_app. Qed.

Lemma step_at ts i p w :
  ts !! i = Some p ->
  step E (w, ts) i =
    (snd (step_thread E p w), <[i := fst (step_thread E p w)]> ts).
Proof.
  intros H. unfold step. simpl. rewrite H.
  destruct (step_thread E p w). reflexivity.
Qed.

(** A caller that runs alone for [k] statements. *)
Lemma run_solo k : forall p w ts i,
  ts !! i = Some p ->
  run E (replicate k i) (w, ts) =
    (snd (steps_thread E k p w), <[i := fst (steps_thread E k p w)]> ts).
Proof.
  induction k as [|k IH]; intros p w ts i Hi; simpl.
  - rewrite (list_insert_id ts i p Hi). reflexivity.
  - unfold run in *. simpl. rewrite (step_at ts i p w Hi).
    destruct (step_thread E p w) as [p1 w1]. simpl.
    rewrite (IH p1 w1 (<[i := p1]> ts) i).
    + rewrite list_insert_insert_eq. reflexivity.
    + apply list_lookup_insert_eq. eapply lookup_lt_Some. exact Hi.
Qed.

(** Run alone from its entry, the statement-level caller is [get_model]. *)
Lemma get_model_as_steps w :
  steps_thread E STEPS L29 w = (Finished (fst (get_model E w)), snd (get_model E w)).
Proof.
  destruct (_model w) as [m|] eqn:Hm.
  - rewrite (get_model_loaded E w m Hm). simpl. rewrite Hm. simpl.
    rewrite Hm. reflexivity.
  - rewrite (get_model_unloaded E w Hm). simpl. rewrite Hm. simpl.
    unfold call_from_pretrained. simpl.
    destruct (from_pretrained E MODEL_ID (loads w) (fs w)) as [[m|e] files];
      reflexivity.
Qed.

(** Callers that arrive once the model is loaded return it and leave the
    world alone. *)
Lemma serial_loaded k : forall d w m,
  _model w = Some m ->
  run E (List.concat (List.map (fun i => replicate STEPS i) (seq d k)))
      (w, (replicate d (Finished (Return (Some m))) ++ replicate k L29)%list) =
    (w, replicate (d + k) (Finished (Return (Some m)))).
Proof.
  induction k as [|k IH]; intros d w m Hm.
  - simpl. rewrite app_nil_r, Nat.add_0_r. reflexivity.
  - change (seq d (S k)) with (d :: seq (S d) k).
    change (replicate (S k) L29) with (L29 :: replicate k L29).
    rewrite List.map_cons, List.concat_cons, run_app.
    rewrite (run_solo STEPS L29).
    2:{ apply list_lookup_middle. rewrite length_replicate. reflexivity. }
    rewrite get_model_as_steps, (get_model_loaded E w m Hm). simpl fst. simpl snd.
    rewrite insert_app_r_alt by (rewrite length_replicate; lia).
    rewrite length_replicate, Nat.sub_diag.
    change (<[0%nat := Finished (Return (Some m))]> (L29 :: replicate k L29))
      with (Finished (Return (Some m)) :: replicate k L29).
    rewrite (cons_middle (Finished (Return (Some m)))), app_assoc.
    rewrite <- replicate_S_end.
    rewrite (IH (S d) w m Hm). f_equal. f_equal. lia.
Qed.

End Interleaving.

(** C1, as the code has it. [get_model] is a test of [_model] followed by
    the construction and the assignment, with no lock around them. When the
    calls do not interleave, which is how the event loop runs them since
    [get_model] does not suspend, [n >= 2] first calls on an unloaded handle
    make exactly one construction, provided it succeeds, and every caller
    gets that instance. *)
Theorem C1_single_construction_when_serialized E n w m files :
  (2 <= n)%nat ->
  _model w = None ->
  from_pretrained E MODEL_ID (loads w) (fs w) = (Return m, files) ->
  let c := Threads.run E (Threads.serial n) (Threads.start w n) in
  loads (fst c) = S (loads w) /\
  _model (fst c) = Some m /\
  snd c = replicate n (Threads.Finished (Return (Some m))).
Proof.
  intros Hn Hm Hok. destruct n as [|k]; [lia|].
  unfold Threads.serial, Threads.start.
  change (seq 0 (S k)) with (0%nat :: seq 1 k).
  change (replicate (S k) Threads.L29)
    with (Threads.L29 :: replicate k Threads.L29).
  rewrite List.map_cons, List.concat_cons, run_app.
  rewrite (run_solo E Threads.STEPS Threads.L29) by reflexivity.
  rewrite get_model_as_steps, (get_model_unloaded E w Hm), Hok.
  simpl fst. simpl snd.
  change (<[0%nat := Threads.Finished (Return (Some m))]>
            (Threads.L29 :: replicate k Threads.L29))
    with (replicate 1 (Threads.Finished (Return (Some m)))
            ++ replicate k Threads.L29)%list.
  rewrite (serial_loaded E k 1 _ m) by reflexivity.
  simpl. repeat split; reflexivity.
Qed.

Lemma C1_witness :
  let c := Threads.run Fixtures.quiet (Threads.serial 3)
             (Threads.start Fixtures.w0 3) in
  loads (fst c) = 1%nat /\
  _model (fst c) = Some 0%nat /\
  snd c = replicate 3 (Threads.Finished (Return (Some 0%nat))).
Proof.
  apply (C1_single_construction_when_serialized Fixtures.quiet 3 Fixtures.w0
           0%nat ∅).
  - lia.
  - reflexivity.
  - reflexivity.
Defined.

(** The claim fails once two first calls interleave: both callers pass the
    test at line 29 before either assigns, and both construct a model. No
    gate makes the second caller wait for the first. *)
Lemma C1_counterexample :
  ~ (forall (E : Env) (n : nat) (sched : list nat) (w : World),
       (2 <= n)%nat ->
       _model w = None ->
       (forall id k files, exists m, from_pretrained E id k files = (Return m, files)) ->
       Threads.all_finished (Threads.run E sched (Threads.start w n)) = true ->
       loads (fst (Threads.run E sched (Threads.start w n))) = S (loads w)).
Proof.
  intros H.
  specialize (H Fixtures.quiet 2%nat Fixtures.alternating Fixtures.w0).
  assert (Hloads : loads (fst (Threads.run Fixtures.quiet Fixtures.alternating
                                 (Threads.start Fixtures.w0 2))) = 2%nat)
    by (vm_compute; reflexivity).
  rewrite Hloads in H. simpl in H.
  assert (2 = 1)%nat; [|lia].
  apply H.
  - lia.
  - reflexivity.
  - intros id k files. exists k. reflexivity.
  - vm_compute. reflexivity.
Qed.

(** The run behind the counterexample: two constructions, and the instance
    made first is dropped. *)
Example alternating_callers_construct_twice :
  let c := Threads.run Fixtures.quiet Fixtures.alternating
             (Threads.start Fixtures.w0 2) in
  loads (fst c) = 2%nat /\ _model (fst c) = Some 1%nat /\
  snd c = [Threads.Finished (Return (Some 1%nat));
           Threads.Finished (Return (Some 1%nat))].
Proof. vm_compute. repeat split; reflexivity. Qed.

(** Without interleaving, a construction that keeps failing is attempted by
    every caller: there is nothing that lets later callers share the failure
    of the first. *)
Example serialized_callers_retry_failed_construction :
  let c := Threads.run Fixtures.offline (Threads.serial 3)
             (Threads.start Fixtures.w0 3) in
  loads (fst c) = 3%nat /\ _model (fst c) = None /\
  snd c = replicate 3 (Threads.Finished (Raise Fixtures.ConnectionError)).
Proof. vm_compute. repeat split; reflexivity. Qed.

(** * Further properties of the service *)

(** ** What a request does to the world besides its files *)

Section Footprint.

Context (E : Env).

(** Steps that change files at most. *)
Ltac files_at_most := repeat split; reflexivity.

Lemma files_only_refl w : files_only w w.
Proof. files_at_most. Qed.

Lemma files_only_trans w1 w2 w3 :
  files_only w1 w2 -> files_only w2 w3 -> files_only w1 w3.
Proof.
  unfold files_only. intros (-> & -> & -> & ->) (-> & -> & -> & ->).
  files_at_most.
Qed.

Lemma save_upload_files_only audio w : files_only w (snd (save_upload E audio w)).
Proof.
  unfold save_upload, bind, NamedTemporaryFile, audio_read, tmp_write, ret.
  destruct (mkstemp_inner _ _ _ _ _) as [[q|e] files]; [|files_at_most].
  destruct (upload_read audio) as [data|e]; [|files_at_most].
  simpl. destruct (write_fault E q data) as [[n e]|]; files_at_most.
Qed.

Lemma os_unlink_files_only p w : files_only w (snd (os_unlink p w)).
Proof. unfold os_unlink. destruct (fs w !! p); files_at_most. Qed.

Lemma call_transcribe_files_only model p w :
  files_only w (snd (call_transcribe E model p w)).
Proof.
  destruct model as [m|]; simpl; [|files_at_most].
  destruct (model_transcribe E m p (fs w)); files_at_most.
Qed.

(** Apart from files, the guarded part changes the world as [get_model]
    alone does. *)
Lemma try_except_after_get_model p w :
  files_only (snd (get_model E w)) (snd (try_except E p w)).
Proof.
  unfold try_except, try_except_Exception, try_body, bind.
  destruct (get_model E w) as [[model|e] w1]; simpl.
  - pose proof (call_transcribe_files_only model p w1) as Hc.
    destruct (call_transcribe E model p w1) as [[r|e] w2]; simpl in *.
    + unfold new_JSONResponse.
      destruct (json_compliant (response_content r)); exact Hc.
    + destruct (exc_is_Exception e); exact Hc.
  - destruct (exc_is_Exception e); files_at_most.
Qed.

Lemma transcribe_saved_after_get_model p w :
  files_only (snd (get_model E w)) (snd (transcribe_saved E p w)).
Proof.
  unfold transcribe_saved, try_finally.
  pose proof (try_except_after_get_model p w) as H1.
  destruct (try_except E p w) as [r w1]. simpl in H1.
  pose proof (os_unlink_files_only p w1) as H2.
  destruct (os_unlink p w1) as [[u|e] w2]; simpl in *;
    eapply files_only_trans; eassumption.
Qed.

(** The files after [get_model], with collaborators that leave them alone. *)
Lemma get_model_files w :
  leaves_files_alone E -> fs (snd (get_model E w)) = fs w.
Proof.
  intros [Hload _]. destruct (_model w) as [m|] eqn:Hm.
  - rewrite (get_model_loaded E w m Hm). reflexivity.
  - rewrite (get_model_unloaded E w Hm).
    pose proof (Hload MODEL_ID (loads w) (fs w)) as Hf.
    destruct (from_pretrained E MODEL_ID (loads w) (fs w)) as [[m|e] files];
      simpl in *; exact Hf.
Qed.

Lemma try_except_files p w :
  leaves_files_alone E -> fs (snd (try_except E p w)) = fs w.
Proof.
  intros Hquiet. pose proof (get_model_files w Hquiet) as Hg.
  destruct Hquiet as [_ Hrun].
  unfold try_except, try_except_Exception, try_body, bind.
  destruct (get_model E w) as [[[m|]|e] w1]; simpl in *.
  - pose proof (Hrun m p (fs w1)) as Hf.
    destruct (model_transcribe E m p (fs w1)) as [[r|e] files]; simpl in *.
    + unfold new_JSONResponse.
      destruct (json_compliant (response_content r)); simpl; congruence.
    + destruct (exc_is_Exception e); simpl; congruence.
  - exact Hg.
  - destruct (exc_is_Exception e); exact Hg.
Qed.


End Footprint.

(** ** The request handler *)

(** X1. The handling of an upload depends on its filename and its bytes
    only. The media type announced for it plays no part: the set of allowed
    types is built and never consulted, so an upload announced with a type
    outside that set, or with none, is handled like any other. *)
Theorem X1_content_type_not_enforced E a b w :
  filename a = filename b ->
  upload_read a = upload_read b ->
  transcribe E a w = transcribe E b w.
Proof.
  destruct a as [fa cta ra], b as [fb ctb rb]. simpl.
  intros Hname Hbody. subst fb rb.
  unfold transcribe, save_upload, upload_suffix, audio_read. simpl.
  reflexivity.
Qed.

Lemma X1_witness :
  transcribe Fixtures.quiet
    (with_content_type (Some "text/plain") Fixtures.clip) Fixtures.w0 =
  transcribe Fixtures.quiet Fixtures.clip Fixtures.w0.
Proof.
  apply (X1_content_type_not_enforced Fixtures.quiet
           (with_content_type (Some "text/plain") Fixtures.clip) Fixtures.clip
           Fixtures.w0); reflexivity.
Defined.

Example text_plain_is_not_an_allowed_type :
  List.existsb (String.eqb "text/plain") allowed_types = false.
Proof. reflexivity. Qed.


(** X3. With collaborators that leave the filesystem alone, a request whose
    upload was saved leaves no trace: when the handler is left, by a response
    or by an exception, the files are exactly those it found. *)
Theorem X3_request_leaves_no_file E audio w p w1 :
  leaves_files_alone E ->
  save_upload E audio w = (Return p, w1) ->
  fs (snd (transcribe E audio w)) = fs w.
Proof.
  intros Hquiet Hsave. rewrite transcribe_unfold, Hsave.
  apply save_upload_completed in Hsave as (k & data & _ & _ & Hnew & ->).
  unfold transcribe_saved, try_finally.
  pose proof (try_except_files E p
                (set_fs (<[p := data]> (<[p := []]> (fs w))) w) Hquiet) as Hfs.
  destruct (try_except E p _) as [r w2]. simpl in Hfs.
  unfold os_unlink. rewrite Hfs, lookup_insert_eq. simpl.
  rewrite delete_insert_eq. apply delete_insert_id. exact Hnew.
Qed.

Lemma X3_witness :
  fs (snd (transcribe Fixtures.offline Fixtures.clip Fixtures.w_notes)) =
    fs Fixtures.w_notes.
Proof.
  apply (X3_request_leaves_no_file Fixtures.offline Fixtures.clip
           Fixtures.w_notes "/tmp/tmpk3x9_qa1.flac"
           (snd (save_upload Fixtures.offline Fixtures.clip Fixtures.w_notes))).
  - split; intros; reflexivity.
  - vm_compute. reflexivity.
Defined.

Lemma quiet_plain_names : plain_names Fixtures.quiet.
Proof.
  intros k. induction k as [|k [IHdot IHsep]]; split; try reflexivity.
  - exact IHdot.
  - exact IHsep.
Qed.

(** X4. Whatever filename the client sends, the artifact is a new file
    directly inside the temporary directory: only the filename's suffix
    enters the path, and a suffix holds no separator. The path did not exist
    before, and saving the upload changes no other file. *)
Theorem X4_artifact_stays_in_tempdir E audio w p w1 :
  plain_names E ->
  save_upload E audio w = (Return p, w1) ->
  (exists base, p = gettempdir E ++ "/" ++ base /\
     Py.contains "/"%char base = false /\ PurePath.name p = base) /\
  fs w !! p = None /\
  (forall q, q <> p -> fs w1 !! q = fs w !! q).
Proof.
  intros Hnames Hsave.
  apply save_upload_completed in Hsave as (k & data & Hp & _ & Hnew & ->).
  destruct (Hnames k) as [_ Hsep].
  assert (Hbase : Py.contains "/"%char
                    ("tmp" ++ tmp_names E k ++ upload_suffix audio) = false).
  { rewrite !contains_append, Hsep.
    destruct (upload_suffix_shape audio) as [-> | (rest & -> & _ & _ & Hrest)];
      [reflexivity|]. simpl. exact Hrest. }
  split; [|split].
  - exists ("tmp" ++ tmp_names E k ++ upload_suffix audio).
    split; [exact Hp|]. split; [exact Hbase|].
    rewrite Hp. apply name_of_join; [exact Hbase | discriminate | discriminate].
  - exact Hnew.
  - intros q Hq. simpl. rewrite !lookup_insert_ne by congruence. reflexivity.
Qed.

Lemma X4_witness :
  exists base, "/tmp/tmpk3x9_qa1.sh" = "/tmp" ++ "/" ++ base /\
    Py.contains "/"%char base = false /\
    PurePath.name "/tmp/tmpk3x9_qa1.sh" = base.
Proof.
  refine (proj1 (X4_artifact_stays_in_tempdir Fixtures.quiet Fixtures.traversal
                   Fixtures.w0 "/tmp/tmpk3x9_qa1.sh"
                   (snd (save_upload Fixtures.quiet Fixtures.traversal
                           Fixtures.w0)) _ _)).
  - exact quiet_plain_names.
  - vm_compute. reflexivity.
Defined.



(** ** Model acquisition *)

(** X6. [get_model] returns a model or raises, never [None]: a returned
    model is the one the global holds afterwards, and after a raise the
    global is still [None], as it was before the call. *)
Theorem X6_get_model_returns_model_or_raises E w :
  match get_model E w with
  | (Return None, _) => False
  | (Return (Some m), w') => _model w' = Some m
  | (Raise e, w') => _model w' = None /\ _model w = None
  end.
Proof.
  destruct (_model w) as [m|] eqn:Hm.
  - rewrite (get_model_loaded E w m Hm). exact Hm.
  - rewrite (get_model_unloaded E w Hm).
    destruct (from_pretrained E MODEL_ID (loads w) (fs w)) as [[m|e] files];
      simpl; auto.
Qed.

(** ** Start-up and the entry point *)

Section Startup.

Context (E : Env).

(** The world once [startup] has printed its two lines. *)
Lemma startup_unfold w :
  startup E w =
    let w2 := write_stdout
                "   Model will load on first request (or set PRELOAD=1 to load now)"
                (write_stdout "🚀 Starting Parakeet server..." w) in
    if bool_decide (environ w !! "PRELOAD" = Some "1")
    then match get_model E w2 with
         | (Return _, w') => (Return tt, w')
         | (Raise e, w') => (Raise e, w')
         end
    else (Return tt, w2).
Proof.
  unfold startup, bind, print, ret. simpl.
  destruct (bool_decide _); [|reflexivity].
  destruct (get_model E _) as [[m|e] w']; reflexivity.
Qed.

End Startup.

(** X7. [startup] constructs the model exactly when [PRELOAD] is the string
    [1] and nothing is loaded yet. With any other value, or none, it only
    prints and leaves the handle and the files alone. With [PRELOAD=1] and an
    unloaded handle it goes through [get_model]: a successful construction
    is stored, and a failed one leaves [startup] as the exception it raised,
    with the handle still unloaded. *)
Theorem X7_startup_preloads_on_request E w :
  let w' := snd (startup E w) in
  (environ w !! "PRELOAD" <> Some "1" ->
     fst (startup E w) = Return tt /\ same_handle w w' /\ fs w' = fs w) /\
  (environ w !! "PRELOAD" = Some "1" -> _model w = None ->
     forall m files,
       from_pretrained E MODEL_ID (loads w) (fs w) = (Return m, files) ->
       fst (startup E w) = Return tt /\ _model w' = Some m /\
       loads w' = S (loads w)) /\
  (environ w !! "PRELOAD" = Some "1" -> _model w = None ->
     forall e files,
       from_pretrained E MODEL_ID (loads w) (fs w) = (Raise e, files) ->
       fst (startup E w) = Raise e /\ _model w' = None /\
       loads w' = S (loads w)).
Proof.
  cbv zeta. rewrite startup_unfold. cbv zeta. split; [|split].
  - intros Hoff. rewrite bool_decide_eq_false_2 by exact Hoff.
    repeat split; reflexivity.
  - intros Hon Hm m files Hok. rewrite bool_decide_eq_true_2 by exact Hon.
    rewrite get_model_unloaded by exact Hm. simpl loads. simpl fs.
    rewrite Hok. repeat split; reflexivity.
  - intros Hon Hm e files Hfail. rewrite bool_decide_eq_true_2 by exact Hon.
    rewrite get_model_unloaded by exact Hm. simpl loads. simpl fs.
    rewrite Hfail. repeat split; [exact Hm].
Qed.

Lemma X7_witness :
  (fst (startup Fixtures.quiet Fixtures.w_preload_true) = Return tt /\
   loads (snd (startup Fixtures.quiet Fixtures.w_preload_true)) = 0%nat) /\
  (fst (startup Fixtures.quiet Fixtures.w_preload) = Return tt /\
   _model (snd (startup Fixtures.quiet Fixtures.w_preload)) = Some 0%nat).
Proof.
  split.
  - destruct (proj1 (X7_startup_preloads_on_request Fixtures.quiet
                       Fixtures.w_preload_true))
      as (H1 & [_ H2] & _).
    + vm_compute. discriminate.
    + split; [exact H1 | exact H2].
  - assert (Hon : environ Fixtures.w_preload !! "PRELOAD" = Some "1")
      by (vm_compute; reflexivity).
    destruct (proj1 (proj2 (X7_startup_preloads_on_request Fixtures.quiet
                              Fixtures.w_preload))
                Hon eq_refl 0%nat ∅ eq_refl)
      as (H1 & H2 & _).
    split; [exact H1 | exact H2].
Defined.

(** X8. After a start-up that preloaded the model, no request constructs
    anything: whatever handlers run afterwards, the construction made by
    [startup] stays the only one and [get_model] returns its instance. *)
Theorem X8_preload_serves_all_requests E w m files evs :
  environ w !! "PRELOAD" = Some "1" ->
  _model w = None ->
  from_pretrained E MODEL_ID (loads w) (fs w) = (Return m, files) ->
  let w2 := handle_all E evs (snd (startup E w)) in
  loads w2 = S (loads w) /\ get_model E w2 = (Return (Some m), w2).
Proof.
  intros Hon Hm Hok w2.
  assert (Hstart : _model (snd (startup E w)) = Some m /\
                   loads (snd (startup E w)) = S (loads w)).
  { rewrite startup_unfold. cbv zeta.
    rewrite bool_decide_eq_true_2 by exact Hon.
    rewrite get_model_unloaded by exact Hm. simpl loads. simpl fs.
    rewrite Hok. split; reflexivity. }
  destruct Hstart as [Hm1 Hl1].
  destruct (handle_all_same_handle E evs _ m Hm1) as [Hm2 Hl2].
  fold w2 in Hm2, Hl2. split; [congruence|].
  apply get_model_loaded. congruence.
Qed.

Lemma X8_witness :
  let w2 := handle_all Fixtures.quiet
              [EvTranscribe Fixtures.clip; EvTranscribe Fixtures.blob]
              (snd (startup Fixtures.quiet Fixtures.w_preload)) in
  loads w2 = 1%nat /\ get_model Fixtures.quiet w2 = (Return (Some 0%nat), w2).
Proof.
  apply (X8_preload_serves_all_requests Fixtures.quiet Fixtures.w_preload
           0%nat ∅).
  - vm_compute. reflexivity.
  - reflexivity.
  - reflexivity.
Defined.

(** X9. The entry point hands [uvicorn.run] the host and port of its
    arguments, announces them on one line, and touches neither the handle nor
    the files. With [--preload] it sets [PRELOAD] to [1], whatever the
    environment held, so that the following [startup] calls
    [from_pretrained] when nothing is loaded; without the flag the
    environment is left as it was. *)
Theorem X9_main_forwards_preload_flag E args w :
  let w' := snd (main args w) in
  fst (main args w) = Return (host args, port args) /\
  same_handle w w' /\ fs w' = fs w /\
  stdout w' = List.app (stdout w)
    ["🦜 Parakeet server starting on http://" ++ host args ++ ":"
       ++ str_int (port args)] /\
  (preload args = true -> _model w = None ->
     environ w' !! "PRELOAD" = Some "1" /\
     loads (snd (startup E w')) = S (loads w)) /\
  (preload args = false -> environ w' = environ w).
Proof.
  cbv zeta. unfold main, bind, print, ret.
  destruct (preload args) eqn:Hflag; simpl.
  - repeat split; try discriminate.
    + apply lookup_insert_eq.
    + rewrite startup_unfold. cbv zeta. simpl environ.
      rewrite bool_decide_eq_true_2 by apply lookup_insert_eq.
      rewrite get_model_unloaded by assumption. simpl loads. simpl fs.
      destruct (from_pretrained E MODEL_ID (loads w) (fs w)) as [[m|e] files];
        reflexivity.
  - repeat split; discriminate.
Qed.

Lemma X9_witness :
  environ (snd (main (mkArgs "127.0.0.1" 9000 true) Fixtures.w_preload_off))
    !! "PRELOAD" = Some "1" /\
  loads (snd (startup Fixtures.quiet
                (snd (main (mkArgs "127.0.0.1" 9000 true)
                        Fixtures.w_preload_off)))) = 1%nat.
Proof.
  apply (X9_main_forwards_preload_flag Fixtures.quiet
           (mkArgs "127.0.0.1" 9000 true) Fixtures.w_preload_off);
    reflexivity.
Defined.

(** With the declared defaults the server binds all interfaces on port 8765
    and does not preload. *)
Example main_with_defaults :
  main default_args Fixtures.w0 =
    (Return ("0.0.0.0", 8765),
     mkWorld ∅ ∅ None 0 ["🦜 Parakeet server starting on http://0.0.0.0:8765"]).
Proof. vm_compute. reflexivity. Qed.

(** ** Progress lines *)

Section Announcements.

Context (E : Env).

Lemma count_line_snoc line out x :
  count_line line (out ++ [x])%list =
    (count_line line out + if String.eqb line x then 1 else 0)%nat.
Proof.
  unfold count_line. rewrite List.filter_app, length_app. simpl.
  destruct (String.eqb line x); reflexivity.
Qed.

Lemma announced_files_only w w' : files_only w w' -> announced w -> announced w'.
Proof.
  unfold files_only, announced. intros (_ & -> & -> & ->) H. exact H.
Qed.

Lemma announced_get_model w : announced w -> announced (snd (get_model E w)).
Proof.
  intros [Hloading Hloaded]. destruct (_model w) as [m|] eqn:Hm.
  - rewrite (get_model_loaded E w m Hm). split; [exact Hloading|].
    simpl. rewrite Hm. exact Hloaded.
  - rewrite (get_model_unloaded E w Hm).
    destruct (from_pretrained E MODEL_ID (loads w) (fs w)) as [[m|e] files];
      unfold announced; simpl; rewrite ?count_line_snoc; simpl;
      rewrite ?Hm, Hloading, Hloaded; split; lia.
Qed.

Lemma announced_handle ev w : announced w -> announced (handle E ev w).
Proof.
  intros Hw. destruct ev as [| |audio|]; simpl.
  - rewrite startup_unfold. cbv zeta.
    assert (Hprinted : announced
              (write_stdout
                 "   Model will load on first request (or set PRELOAD=1 to load now)"
                 (write_stdout "🚀 Starting Parakeet server..." w))).
    { destruct Hw as [H1 H2]. unfold announced. simpl.
      rewrite !count_line_snoc. simpl. rewrite H1, H2. split; lia. }
    destruct (bool_decide _); [|exact Hprinted].
    pose proof (announced_get_model _ Hprinted) as Hg.
    destruct (get_model E _) as [[m|e] w']; exact Hg.
  - exact Hw.
  - rewrite transcribe_unfold.
    pose proof (save_upload_files_only E audio w) as Hsave.
    destruct (save_upload E audio w) as [[p|e] w1]; simpl in *.
    + eapply announced_files_only;
        [apply transcribe_saved_after_get_model|].
      apply announced_get_model.
      eapply announced_files_only; eassumption.
    + eapply announced_files_only; eassumption.
  - apply announced_get_model, Hw.
Qed.

End Announcements.

(** X10. From the start of the process on, through any sequence of handler
    invocations, the line that announces a construction has been printed once
    per call of [from_pretrained], and the line that reports the loaded
    model has been printed once if a model is loaded and never otherwise: the
    completion is never reported twice. *)
Theorem X10_progress_lines_match_constructions E evs files env :
  let w := handle_all E evs (boot files env) in
  count_line LOADING (stdout w) = loads w /\
  count_line LOADED (stdout w) =
    match _model w with Some _ => 1%nat | None => 0%nat end /\
  (count_line LOADED (stdout w) <= 1)%nat.
Proof.
  cbv zeta.
  assert (H : announced (handle_all E evs (boot files env))).
  { assert (Hboot : announced (boot files env)) by (split; reflexivity).
    revert Hboot. generalize (boot files env).
    induction evs as [|ev evs IH]; intros w Hw; simpl; [exact Hw|].
    apply IH, announced_handle, Hw. }
  destruct H as [H1 H2]. split; [exact H1|]. split; [exact H2|].
  rewrite H2. destruct (_model _); lia.
Qed.

Example progress_lines_after_retry :
  let w := handle_all Fixtures.flaky
             [EvTranscribe Fixtures.clip; EvTranscribe Fixtures.clip;
              EvTranscribe Fixtures.blob]
             (boot ∅ ∅) in
  loads w = 2%nat /\ stdout w = [LOADING; LOADING; LOADED].
Proof. vm_compute. split; reflexivity. Qed.

(** ** Interleaved calls of [get_model], whatever the schedule *)

Section Schedules.

Import Threads.

Context (E : Env).

(** A property kept by every statement holds after every schedule. *)
Lemma run_invariant (P : Config -> Prop) :
  (forall c i, P c -> P (step E c i)) ->
  forall sched c, P c -> P (run E sched c).
Proof.
  intros Hstep sched. unfold run.
  induction sched as [|i sched IH]; intros c Hc; simpl; [exact Hc|].
  apply IH, Hstep, Hc.
Qed.

Lemma step_thread_keeps_model p w :
  is_Some (_model w) -> is_Some (_model (snd (step_thread E p w))).
Proof.
  intros Hw. destruct p; simpl; try exact Hw.
  - unfold call_from_pretrained.
    destruct (from_pretrained E MODEL_ID (loads w) (fs w)) as [[m|e] files];
      exact Hw.
  - eauto.
Qed.

Lemma pc_ok_later w w' p :
  (is_Some (_model w) -> is_Some (_model w')) -> pc_ok w p -> pc_ok w' p.
Proof.
  intros Hmono. destruct p as [| | | | | |[r|e]]; simpl; intuition.
Qed.

Lemma step_thread_pc_ok p w :
  pc_ok w p -> pc_ok (snd (step_thread E p w)) (fst (step_thread E p w)).
Proof.
  destruct p as [| | |m| | |[r|e]]; simpl; try (intros; exact I || eauto; fail).
  - intros _. destruct (_model w) eqn:Hm; simpl; [rewrite Hm; eauto | exact I].
  - intros _. unfold call_from_pretrained.
    destruct (from_pretrained E MODEL_ID (loads w) (fs w)) as [[m|e] files];
      exact I.
Qed.

Lemma step_keeps_pc_ok c i :
  Forall (pc_ok (fst c)) (snd c) ->
  Forall (pc_ok (fst (step E c i))) (snd (step E c i)).
Proof.
  destruct c as [w ts]. simpl. intros Hall. unfold step. simpl.
  destruct (ts !! i) as [p|] eqn:Hi; [|exact Hall].
  pose proof (step_thread_pc_ok p w (Forall_lookup_1 _ _ _ _ Hall Hi)) as Hp.
  pose proof (step_thread_keeps_model p w) as Hmono.
  destruct (step_thread E p w) as [p' w']. simpl in *.
  apply Forall_insert; [|exact Hp].
  eapply Forall_impl; [exact Hall|].
  intros q. apply pc_ok_later, Hmono.
Qed.

Lemma list_sum_insert (f : pc -> nat) ts i p p' :
  ts !! i = Some p ->
  (list_sum (List.map f (<[i := p']> ts)) + f p =
   list_sum (List.map f ts) + f p')%nat.
Proof.
  revert i. induction ts as [|q ts IH]; intros [|i] Hi; try discriminate.
  - inversion Hi; subst. simpl. lia.
  - simpl in *. specialize (IH i Hi). lia.
Qed.

Lemma step_thread_budget p w :
  (loads (snd (step_thread E p w)) + pending (fst (step_thread E p w))
   <= loads w + pending p)%nat /\
  (loads w <= loads (snd (step_thread E p w)))%nat.
Proof.
  destruct p; simpl; try lia.
  - destruct (_model w); simpl; lia.
  - unfold call_from_pretrained.
    destruct (from_pretrained E MODEL_ID (loads w) (fs w)) as [[m|e] files];
      simpl; lia.
Qed.

Lemma step_budget c i :
  (potential (step E c i) <= potential c)%nat /\
  (loads (fst c) <= loads (fst (step E c i)))%nat.
Proof.
  destruct c as [w ts]. unfold potential, step. simpl.
  destruct (ts !! i) as [p|] eqn:Hi; [|simpl; lia].
  pose proof (step_thread_budget p w) as [Hb Hl].
  destruct (step_thread E p w) as [p' w']. simpl in *.
  pose proof (list_sum_insert pending ts i p p' Hi). lia.
Qed.

Lemma potential_start w n : potential (start w n) = (loads w + n)%nat.
Proof.
  unfold potential, start. simpl. f_equal.
  induction n as [|n IH]; simpl; [reflexivity | rewrite IH; reflexivity].
Qed.

End Schedules.

(** X11. Under every interleaving of any number of callers, a caller that
    has returned from [get_model] holds a model, never [None], and the
    global is loaded from then on: nothing ever resets [_model]. *)
Theorem X11_interleaved_callers_get_a_model E sched w n i r :
  snd (Threads.run E sched (Threads.start w n)) !! i
    = Some (Threads.Finished (Return r)) ->
  is_Some r /\ is_Some (_model (fst (Threads.run E sched (Threads.start w n)))).
Proof.
  intros Hi.
  assert (Hall : Forall (Threads.pc_ok (fst (Threads.run E sched (Threads.start w n))))
                   (snd (Threads.run E sched (Threads.start w n)))).
  { apply (run_invariant E (fun c => Forall (Threads.pc_ok (fst c)) (snd c))).
    - intros c j. apply step_keeps_pc_ok.
    - unfold Threads.start. simpl. apply Forall_replicate. exact I. }
  exact (Forall_lookup_1 _ _ _ _ Hall Hi).
Qed.

Lemma X11_witness :
  is_Some (Some 1%nat) /\
  is_Some (_model (fst (Threads.run Fixtures.quiet Fixtures.alternating
                          (Threads.start Fixtures.w0 2)))).
Proof.
  apply (X11_interleaved_callers_get_a_model Fixtures.quiet Fixtures.alternating
           Fixtures.w0 2 0%nat (Some 1%nat)).
  vm_compute. reflexivity.
Defined.

(** X12. Under every interleaving, [n] callers of [get_model] cause at most
    [n] constructions: each caller calls [from_pretrained] at most once, and
    the count never goes down. *)
Theorem X12_at_most_one_construction_per_caller E sched w n :
  let c := Threads.run E sched (Threads.start w n) in
  (loads w <= loads (fst c) <= loads w + n)%nat.
Proof.
  cbv zeta.
  assert (H : (Threads.potential (Threads.run E sched (Threads.start w n))
                 <= loads w + n /\
               loads w <= loads (fst (Threads.run E sched (Threads.start w n))))%nat).
  { apply (run_invariant E (fun c => (Threads.potential c <= loads w + n /\
                                      loads w <= loads (fst c))%nat)).
    - intros c j [Hp Hl]. pose proof (step_budget E c j) as [H1 H2]. lia.
    - rewrite potential_start. simpl. lia. }
  unfold Threads.potential in H. lia.
Qed.

(** X13. Once a model is loaded, concurrent callers only read it: under
    every interleaving the world stays as it is, with no construction and
    nothing printed, and every caller that finishes returns the loaded
    instance. *)
Theorem X13_loaded_model_is_shared_read_only E sched w n m :
  _model w = Some m ->
  fst (Threads.run E sched (Threads.start w n)) = w /\
  forall i r,
    snd (Threads.run E sched (Threads.start w n)) !! i
      = Some (Threads.Finished r) ->
    r = Return (Some m).
Proof.
  intros Hm.
  pose (ok := fun p => p = Threads.L29 \/ p = Threads.L34 \/
                       p = Threads.Finished (Return (Some m))).
  assert (H : fst (Threads.run E sched (Threads.start w n)) = w /\
              Forall ok (snd (Threads.run E sched (Threads.start w n)))).
  { apply (run_invariant E (fun c => fst c = w /\ Forall ok (snd c))).
    - intros [w0 ts] j [Hw Hts]. simpl in Hw. subst w0.
      unfold Threads.step. simpl.
      destruct (ts !! j) as [p|] eqn:Hj; [|split; [reflexivity | exact Hts]].
      destruct (Forall_lookup_1 _ _ _ _ Hts Hj) as [-> | [-> | ->]]; simpl;
        rewrite ?Hm; simpl; (split; [reflexivity|]);
        apply Forall_insert; try exact Hts; unfold ok; auto.
    - split; [reflexivity|]. unfold Threads.start. simpl.
      apply Forall_replicate. left. reflexivity. }
  destruct H as [Hw Hts]. split; [exact Hw|].
  intros i r Hi.
  destruct (Forall_lookup_1 _ _ _ _ Hts Hi) as [H | [H | H]];
    [discriminate | discriminate | congruence].
Qed.

Lemma X13_witness :
  fst (Threads.run Fixtures.quiet Fixtures.alternating
         (Threads.start (mkWorld ∅ ∅ (Some 7%nat) 1 []) 2))
    = mkWorld ∅ ∅ (Some 7%nat) 1 [].
Proof.
  apply (X13_loaded_model_is_shared_read_only Fixtures.quiet
           Fixtures.alternating (mkWorld ∅ ∅ (Some 7%nat) 1 []) 2 7%nat).
  reflexivity.
Defined.

(** ** Uploads that cannot be saved, and the shape of the suffix *)

(** X14. When the upload cannot be saved, because no temporary file could be
    created or because reading or writing raised, the handler lets that
    exception through as it is, not as an [HTTPException], and the model is
    neither constructed nor called: nothing but files differs afterwards. *)
Theorem X14_failed_save_propagates E audio w e w1 :
  save_upload E audio w = (Raise e, w1) ->
  transcribe E audio w = (Raise (Propagated e), w1) /\
  files_only w w1.
Proof.
  intros Hsave. split.
  - rewrite transcribe_unfold, Hsave. reflexivity.
  - pose proof (save_upload_files_only E audio w) as H.
    rewrite Hsave in H. exact H.
Qed.

Lemma X14_witness :
  transcribe Fixtures.full_disk Fixtures.blob Fixtures.w0 =
    (Raise (Propagated Fixtures.DiskFull),
     snd (save_upload Fixtures.full_disk Fixtures.blob Fixtures.w0)).
Proof.
  apply (X14_failed_save_propagates Fixtures.full_disk Fixtures.blob
           Fixtures.w0 Fixtures.DiskFull).
  vm_compute. reflexivity.
Defined.

(** X15. The suffix given to the artifact is empty, or a dot followed by at
    least one character with no further dot and no separator in it. For a
    filename it is the end of the filename's last component, so of several
    extensions only the last is kept. *)
Theorem X15_suffix_is_last_extension audio :
  (upload_suffix audio = EmptyString \/ is_extension (upload_suffix audio)) /\
  (forall f, filename audio = Some f -> f <> EmptyString ->
     exists pre, PurePath.name f = pre ++ upload_suffix audio).
Proof.
  split; [apply upload_suffix_shape|].
  intros f Hf Hne. rewrite (upload_suffix_named audio f Hf Hne).
  apply suffix_is_tail.
Qed.

Lemma X15_witness :
  exists pre, PurePath.name "up.loads/rec.tar.gz" =
    pre ++ upload_suffix (mkUpload (Some "up.loads/rec.tar.gz") None (Return [])).
Proof.
  apply (proj2 (X15_suffix_is_last_extension
                  (mkUpload (Some "up.loads/rec.tar.gz") None (Return [])))
           "up.loads/rec.tar.gz").
  - reflexivity.
  - discriminate.
Defined.

Example suffix_of_archive :
  upload_suffix (mkUpload (Some "up.loads/rec.tar.gz") None (Return [])) = ".gz".
Proof. reflexivity. Qed.
